(** * ReactiveTraderCloud client: FX trades grid, OpenFin window frame,
      bundler configuration and the credit end-to-end check

    The development embeds four source units of the client:
    - the FX trades grid component (row click broadcast, rejected rows),
    - the LimitChecker window frame of the OpenFin container,
    - the bundler configuration (targets, plugins, proxy, static copy),
    - the tail of the credit RFQ end-to-end test.

    JavaScript strings are modelled as [string] (a sequence of one-byte
    characters); case conversion acts on the ASCII letters.  Objects used as
    string-keyed maps ([process.env]) are [gmap string string]. *)

From Stdlib Require Import String Ascii List Bool Arith Lia.
From stdpp Require Import base option list strings gmap.

Local Open Scope string_scope.
Local Open Scope list_scope.

(** ** String primitives of the JavaScript runtime *)

Module Js.

(** [s.startsWith(p)] *)
Fixpoint startsWith (p s : string) : bool :=
  match p, s with
  | EmptyString, _ => true
  | String _ _, EmptyString => false
  | String a p', String b s' => if Ascii.eqb a b then startsWith p' s' else false
  end.

(** [s.endsWith(p)] *)
Definition endsWith (p s : string) : bool :=
  startsWith (String.rev p) (String.rev s).

(** [s.slice(n)] for [0 <= n] *)
Fixpoint drop (n : nat) (s : string) : string :=
  match n, s with
  | O, _ => s
  | S _, EmptyString => EmptyString
  | S k, String _ s' => drop k s'
  end.

(** [s.includes(sub)] *)
Fixpoint includes (sub s : string) : bool :=
  startsWith sub s ||
  match s with
  | EmptyString => false
  | String _ s' => includes sub s'
  end.

(** [s.split(sep)] for a non-empty separator, as at every call site.
    [split_aux] returns the piece in progress and the pieces after it;
    [skip] counts the characters of a separator still to be consumed. *)
Fixpoint split_aux (sep : string) (skip : nat) (s : string) : string * list string :=
  match s with
  | EmptyString => (EmptyString, [])
  | String c s' =>
      match skip with
      | S k => split_aux sep k s'
      | O =>
          if startsWith sep s
          then let '(p, ps) := split_aux sep (String.length sep - 1) s' in
               (EmptyString, p :: ps)
          else let '(p, ps) := split_aux sep 0 s' in
               (String c p, ps)
      end
  end.

Definition split (sep s : string) : list string :=
  let '(p, ps) := split_aux sep 0 s in p :: ps.

(** The replacement text of [String.prototype.replace] for a pattern
    without capture groups: [$$], [$&], [$`] and [$'] are interpreted,
    any other [$] stands for itself. *)
Fixpoint getSubstitution (matched before after rep : string) : string :=
  match rep with
  | EmptyString => EmptyString
  | String c r =>
      if Ascii.eqb c "$" then
        match r with
        | String d r' =>
            if Ascii.eqb d "$" then String "$" (getSubstitution matched before after r')
            else if Ascii.eqb d "&" then matched +:+ getSubstitution matched before after r'
            else if Ascii.eqb d "`" then before +:+ getSubstitution matched before after r'
            else if Ascii.eqb d "'" then after +:+ getSubstitution matched before after r'
            else String "$" (getSubstitution matched before after r)
        | EmptyString => String "$" EmptyString
        end
      else String c (getSubstitution matched before after r)
  end.

(** [s.replace(/pat/g, rep)] for a pattern that is a literal, non-empty
    text.  [before] is the part of the subject already scanned. *)
Fixpoint replace_aux (pat rep before : string) (skip : nat) (s : string) : string :=
  match s with
  | EmptyString => EmptyString
  | String c s' =>
      let before' := before +:+ String c EmptyString in
      match skip with
      | S k => replace_aux pat rep before' k s'
      | O =>
          if startsWith pat s
          then getSubstitution pat before (drop (String.length pat) s) rep
               +:+ replace_aux pat rep before' (String.length pat - 1) s'
          else String c (replace_aux pat rep before' 0 s')
      end
  end.

Definition replaceAll (pat rep s : string) : string :=
  replace_aux pat rep EmptyString 0 s.

(** The same scan for a replacement text that is put in as it stands. *)
Fixpoint replace_verbatim (pat rep : string) (skip : nat) (s : string) : string :=
  match s with
  | EmptyString => EmptyString
  | String c s' =>
      match skip with
      | S k => replace_verbatim pat rep k s'
      | O =>
          if startsWith pat s
          then rep +:+ replace_verbatim pat rep (String.length pat - 1) s'
          else String c (replace_verbatim pat rep 0 s')
      end
  end.

Definition upper_char (c : ascii) : ascii :=
  let n := nat_of_ascii c in
  if Nat.leb 97 n && Nat.leb n 122 then ascii_of_nat (n - 32) else c.

Definition lower_char (c : ascii) : ascii :=
  let n := nat_of_ascii c in
  if Nat.leb 65 n && Nat.leb n 90 then ascii_of_nat (n + 32) else c.

Fixpoint map_chars (f : ascii -> ascii) (s : string) : string :=
  match s with
  | EmptyString => EmptyString
  | String c s' => String (f c) (map_chars f s')
  end.

(** [s.toUpperCase()] and [s.toLowerCase()], for ASCII text: a character
    outside ASCII is left as it is. *)
Definition toUpperCase : string -> string := map_chars upper_char.
Definition toLowerCase : string -> string := map_chars lower_char.

(** Truthiness of a value that is a string or [undefined]. *)
Definition truthy (v : option string) : bool :=
  match v with
  | Some s => negb (String.eqb s EmptyString)
  | None => false
  end.

(** [v || d] for such a value and a string default. *)
Definition or_else (v : option string) (d : string) : string :=
  match v with
  | Some s => if String.eqb s EmptyString then d else s
  | None => d
  end.

(** [s] holds the character [c]. *)
Fixpoint has_char (c : ascii) (s : string) : bool :=
  match s with
  | EmptyString => false
  | String c' s' => Ascii.eqb c c' || has_char c s'
  end.

(** [arr.includes(x)] on an array of strings *)
Definition arr_includes (x : string) (arr : list string) : bool :=
  existsb (String.eqb x) arr.

End Js.

(** ** The host of the user interface: container windows and the interop bus

    Handlers of the user interface are programs over the calls they make on
    the host.  A call on a container window returns a promise; the host
    settles it, and a [then] callback runs on fulfilment only. *)

Module Host.

Definition WindowId := nat.

(** The methods of the container's window object that the client calls. *)
Inductive WindowMethod := close | minimize | maximize | restore | getState.

Definition reply (m : WindowMethod) : Type :=
  match m with
  | getState => string
  | _ => unit
  end.

Inductive Settled (A : Type) : Type :=
| Fulfilled (a : A)
| Rejected (reason : string).
Arguments Fulfilled {A} a.
Arguments Rejected {A} reason.

(** An FDC3 context object [{ type, id: { ticker } }]. *)
Record InstrumentId := { ticker : string }.
Record Context := { type : string; id : InstrumentId }.

(** What a handler does to the world outside the component. *)
Inductive Event :=
| WindowCall (w : WindowId) (m : WindowMethod)
| Fdc3Broadcast (c : Context).

Inductive Prog (A : Type) : Type :=
| Ret (a : A)
| Call (w : WindowId) (m : WindowMethod) (k : Settled (reply m) -> Prog A)
| Broadcast (c : Context) (k : Prog A).
Arguments Ret {A} a.
Arguments Call {A} w m k.
Arguments Broadcast {A} c k.

Fixpoint bind {A B : Type} (p : Prog A) (f : A -> Prog B) : Prog B :=
  match p with
  | Ret a => f a
  | Call w m k => Call w m (fun r => bind (k r) f)
  | Broadcast c k => Broadcast c (bind k f)
  end.

(** [w.m()]: the call, yielding the settled promise. *)
Definition call (w : WindowId) (m : WindowMethod) : Prog (Settled (reply m)) :=
  Call w m Ret.

(** [p.then(f)] where [f] itself returns a promise. *)
Definition then_ {A B : Type} (p : Prog (Settled A)) (f : A -> Prog (Settled B))
  : Prog (Settled B) :=
  bind p (fun r =>
    match r with
    | Fulfilled a => f a
    | Rejected e => Ret (Rejected e)
    end).

(** The container: how it settles a call, given the events so far. *)
Definition Container := list Event -> WindowId -> forall m : WindowMethod, Settled (reply m).

(** Running a handler against a container: the events in order of
    occurrence (after those of [past]) and the result. *)
Fixpoint run {A : Type} (host : Container) (p : Prog A) (past : list Event)
  : list Event * A :=
  match p with
  | Ret a => (past, a)
  | Call w m k => run host (k (host past w m)) (past ++ [WindowCall w m])
  | Broadcast c k => run host k (past ++ [Fdc3Broadcast c])
  end.

Definition trace {A : Type} (host : Container) (p : Prog A) : list Event :=
  fst (run host p []).

End Host.

(** ** The FX trades grid *)

Module FxTrades.
Import Host.

(** Modelled from the spec: the trade record type is declared in the trades
    service, outside the sources at hand; the spec gives it a symbol, a
    quantity, a price, a status such as "Rejected" and an identifier. *)
Record FxTrade := {
  tradeId : string;
  symbol : string;
  notional : Z;
  spotRate : Z;
  status : string
}.

(** The interop bridge object of the page, when there is one. *)
Inductive DesktopAgent := desktopAgent.

(** The part of the global [window] object the component reads. *)
Record Window := { fdc3 : option DesktopAgent }.

Definition tryBroadcastContext (window : Window) (trade : FxTrade) : Prog unit :=
  let context := {| type := "fdc3.instrument"; id := {| ticker := symbol trade |} |} in
  match fdc3 window with
  | Some _ => Broadcast context (Ret tt)
  | None => Ret tt
  end.

Definition isRejected (row : FxTrade) : bool :=
  String.eqb (status row) "Rejected".

End FxTrades.

(** ** The LimitChecker window frame of the OpenFin container *)

Module LimitCheckerWindowFrame.
Import Host.

Record HeaderControlHandlers := {
  close : Prog (Settled unit);
  minimize : Prog (Settled unit);
  maximize : Prog (Settled unit)
}.

(** [win] is the window that [fin.Window.getCurrentSync()] returned when
    the component was rendered. *)
Definition headerControlHandlers (win : WindowId) : HeaderControlHandlers :=
  {| close := call win Host.close;
     minimize := call win Host.minimize;
     maximize :=
       then_ (call win getState) (fun state =>
         if String.eqb state "maximized"
         then call win restore
         else call win Host.maximize) |}.

End LimitCheckerWindowFrame.

(** ** The bundler configuration *)

Module ViteConfig.

(** *** The pieces of the Node runtime the configuration calls *)

Module Path.

(** The object [path.parse] returns. *)
Record ParsedPath := {
  root : string;
  dir : string;
  base : string;
  ext : string;
  name : string
}.

(** The [path] module of the runtime: [parse] and [join]. *)
Class PathApi := {
  parse : string -> ParsedPath;
  join : list string -> string
}.

End Path.

(** The file system as the plugins see it: [readdirSync] lists a
    directory or throws ([None]); [statSync] succeeds or throws. *)
Record FileSystem := {
  readdirSync : string -> option (list string);
  statSync : string -> bool
}.

(** What a [resolveId] hook hands back to the bundler. *)
Inductive ResolveIdResult :=
| Null                                             (* [return null] *)
| Resolve (id : string) (importer : option string) (* [return this.resolve(id, importer)] *)
| Id (id : string)                                 (* [return id] *)
| Throws.                                          (* an exception leaves the hook *)

Definition OPENFIN_RUNTIME : string := "31.112.75.4".

(** A property of a plugin object: a text, a hook, or [undefined]. *)
Inductive Value :=
| Undefined
| Text (s : string)
| Hook (h : nat).

(** [customPreloadPlugin]: [preload] is the object the preload library
    returns.  The result is a copy with [enforce] set, in which the hook
    under [generateBundle] has moved to [writeBundle]. *)
Definition customPreloadPlugin (preload : gmap string Value) : gmap string Value :=
  let result := <[ "enforce" := Text "post" ]> preload in
  let result :=
    <[ "writeBundle" := default Undefined (result !! "generateBundle") ]> result in
  delete "generateBundle" result.

Section Config.

Context `{Path.PathApi}.

(** The text of the module constant [localPort], that is of
    [Number(process.env.PORT) || 1917], as a template literal prints it. *)
Variable localPort : string.

Definition getBaseUrl (processEnv : gmap string string) (dev : bool) : string :=
  if dev
  then "http://localhost:" +:+ localPort
  else Js.or_else
         (Some (Js.or_else (processEnv !! "DOMAIN") "" +:+
                Js.or_else (processEnv !! "URL_PATH") ""))
         "".

(** The double quote, as a text. *)
Definition dquote : string := String (ascii_of_nat 34) "".

(** The manifest tag of the page: the first interpolation of the template of
    [injectScriptIntoHtml]. *)
Definition manifestTag (processEnv : gmap string string) (isDev : bool)
    (buildTarget : string) : string :=
  if String.eqb buildTarget "web"
  then "<link rel=" +:+ dquote +:+ "manifest" +:+ dquote +:+ " href=" +:+ dquote +:+
       getBaseUrl processEnv isDev +:+ "/manifest.json" +:+ dquote +:+ " />"
  else "<!-- no manifest.json for OpenFin -->".

(** The analytics identifier: the second interpolation of the template. *)
Definition analyticsId (env : string) : string :=
  if String.eqb env "prod" then "G-Z3PC9MRCH9" else "G-Y28QSEPEC8".

(** The [injectScript] text that [injectScriptIntoHtml] gives to the HTML
    plugin. *)
Definition injectScriptIntoHtml (processEnv : gmap string string) (isDev : bool)
    (buildTarget env : string) : string :=
  "
          " +:+
  manifestTag processEnv isDev buildTarget +:+
  "
          
          <script>
            // Hydra dependency references BigInt at run time even when the application isn't explicitly started
            // Detect this as supportsBigInt so we  can show a 'browser unsupported' message
            // Set BigInt to an anon function to prevent the runtime error

            window.supportsBigInt = typeof BigInt !== 'undefined';
            window.BigInt = supportsBigInt ? BigInt : function(){};
          </script>
          
          <script async src=" +:+ dquote +:+ "https://www.googletagmanager.com/gtag/js?id=" +:+
  analyticsId env +:+
  dquote +:+ "></script>
        ".

Definition apiMockReplacerPlugin (fs : FileSystem)
    (source : string) (importer : option string) : ResolveIdResult :=
  if negb (Js.endsWith ".ts" source) then Null else
  let file := Path.parse source in
  match readdirSync fs ("." +:+ Path.dir file) with
  | None => Throws
  | Some files =>
      if negb (Js.arr_includes (Path.name file +:+ ".service-mock.ts") files) then Null else
      let mockPath := Path.dir file +:+ "/" +:+ Path.name file +:+ ".service-mock.ts" in
      Resolve mockPath importer
  end.

(** The loop of the build branch: the first of the extensions for which
    [statSync] succeeds on [candidatePath.extension] (the message it prints
    on the console is left out). *)
Fixpoint first_candidate (fs : FileSystem) (candidatePath : string)
    (extensions : list string) : option string :=
  match extensions with
  | [] => None
  | e :: rest =>
      let candidate := candidatePath +:+ "." +:+ e in
      if statSync fs candidate then Some candidate
      else first_candidate fs candidatePath rest
  end.

Definition targetBuildPlugin (dev : bool) (target : string) (fs : FileSystem)
    (source : string) (importer : option string) : ResolveIdResult :=
  if dev then
    let extension := Js.split "." source !! 1%nat in
    if negb (bool_decide (extension = Some "ts")) &&
       negb (bool_decide (extension = Some "tsx"))
    then Null else
    let extension := default "" extension in
    let file := Path.parse source in
    match readdirSync fs ("." +:+ Path.dir file) with
    | None => Throws
    | Some files =>
        if negb (Js.arr_includes
                   (Path.name file +:+ "." +:+ target +:+ "." +:+ extension) files)
        then Null else
        let mockPath :=
          Path.dir file +:+ "/" +:+ Path.name file +:+ "." +:+ target +:+ "." +:+ extension in
        Resolve mockPath importer
    end
  else
    let rootPrefix := "client/src/" in
    let thisImporter := Js.replaceAll "\" "/" (Js.or_else importer "") in
    if negb (Js.truthy importer) ||
       negb (Js.includes rootPrefix thisImporter) ||
       String.eqb source "./main"
    then Null else
    let importedFile := Path.parse source in
    let importerFile := Path.parse thisImporter in
    let candidatePath :=
      Path.join
        [ if Js.startsWith "/src" (Path.dir importedFile) &&
             Js.includes rootPrefix (Path.dir importerFile)
          then default "" (Js.split rootPrefix (Path.dir importerFile) !! 0%nat) +:+ "/client"
          else Path.dir importerFile;
          Path.dir importedFile;
          Path.name importedFile +:+ "." +:+ Js.toLowerCase target ] in
    match first_candidate fs candidatePath ["ts"; "tsx"] with
    | Some candidate => Id candidate
    | None => Null
    end.

Definition indexSwitchPlugin (target : string) (fs : FileSystem)
    (source : string) (importer : option string) : ResolveIdResult :=
  if negb (Js.startsWith "./main" source) || negb (Js.truthy importer)
  then Null else
  let importedFile := Path.parse source in
  let importerFile := Path.parse (default "" importer) in
  let candidate :=
    Path.join
      [ Path.dir importerFile;
        Path.dir importedFile;
        Path.name importedFile +:+ "." +:+ Js.toLowerCase target +:+ ".ts" ] in
  if statSync fs candidate then Id candidate else Null.

(** *** Static assets *)

(** One entry of the [targets] option of the static-copy plugin. *)
Record CopyTarget := {
  src : string;
  dest : string;
  rename : option string;
  transform : option (string -> string)
}.

Record StaticCopyOptions := {
  flatten : bool;
  targets : list CopyTarget
}.

(** The [transform] closure of [copyPlugin]; [processEnv] is the
    environment at the time a file is copied. *)
Definition copyPlugin_transform (processEnv : gmap string string)
    (isDev : bool) (env : string) (contents : string) : string :=
  let s1 := Js.replaceAll "<BASE_URL>"
              (getBaseUrl processEnv (isDev || String.eqb env "local")) contents in
  let s2 := Js.replaceAll "web.prod." "www." s1 in
  let s3 := Js.replaceAll "<ENV_NAME>" env s2 in
  let s4 := Js.replaceAll "<ENV_SUFFIX>"
              (if String.eqb env "prod" then "" else " " +:+ Js.toUpperCase env) s3 in
  Js.replaceAll "<OPENFIN_RUNTIME>" OPENFIN_RUNTIME s4.

(** The options [copyPlugin] gives to the static-copy plugin. *)
Definition copyPlugin (processEnv : gmap string string)
    (isDev : bool) (buildTarget : string) (env : string) : StaticCopyOptions :=
  let transform := copyPlugin_transform processEnv isDev env in
  {| flatten := true;
     targets :=
       if String.eqb buildTarget "openfin"
       then [ {| src := "public-openfin/*.json"; dest := "config";
                 rename := None; transform := Some transform |};
              {| src := "public-openfin/rt-fx.json"; dest := "config";
                 rename := Some "app.json"; transform := Some transform |};
              {| src := "public-openfin/plugin/*"; dest := "plugin";
                 rename := None; transform := None |} ]
       else [ {| src := "public-pwa/manifest.json"; dest := "";
                 rename := None; transform := Some transform |};
              {| src := "public-pwa/splashscreens/*"; dest := "splashscreens";
                 rename := None; transform := None |} ] |}.

(** *** The configuration *)

(** The plugins of the configuration, each with the arguments it was
    made from.  The [resolveId] hooks of the plugins that the configuration
    file defines are given by [plugin_resolveId], the options of the static
    copy by [plugin_copy]; the other plugins come from libraries. *)
Inductive Plugin :=
| TargetBuildPlugin (dev : bool) (target : string)
| IndexSwitchPlugin (target : string)
| ApiMockReplacerPlugin
| React
| SplitVendorChunkPlugin
| CustomPreloadPlugin (prefix : string)
| InjectWebServiceWorkerPlugin (mode : string) (assetsPrefix : string)
| CopyPlugin (isDev : bool) (buildTarget : string) (env : string)
| InjectScriptIntoHtml (isDev : bool) (buildTarget : string) (env : string)
| FontFacePreload.

Definition plugin_resolveId (p : Plugin)
  : option (FileSystem -> string -> option string -> ResolveIdResult) :=
  match p with
  | TargetBuildPlugin dev target => Some (targetBuildPlugin dev target)
  | IndexSwitchPlugin target => Some (indexSwitchPlugin target)
  | ApiMockReplacerPlugin => Some apiMockReplacerPlugin
  | _ => None
  end.

(** The build target a plugin was made from, for those made from one. *)
Definition plugin_target (p : Plugin) : option string :=
  match p with
  | TargetBuildPlugin _ target => Some target
  | IndexSwitchPlugin target => Some target
  | CopyPlugin _ buildTarget _ => Some buildTarget
  | InjectScriptIntoHtml _ buildTarget _ => Some buildTarget
  | _ => None
  end.

Definition plugin_copy (processEnv : gmap string string) (p : Plugin)
  : option StaticCopyOptions :=
  match p with
  | CopyPlugin isDev buildTarget env => Some (copyPlugin processEnv isDev buildTarget env)
  | _ => None
  end.

Definition plugin_injectScript (processEnv : gmap string string) (p : Plugin)
  : option string :=
  match p with
  | InjectScriptIntoHtml isDev buildTarget env =>
      Some (injectScriptIntoHtml processEnv isDev buildTarget env)
  | _ => None
  end.

Record ProxyOptions := {
  target : string;
  changeOrigin : bool;
  ws : bool
}.

Record TestOptions := {
  globals : bool;
  environment : string;
  include : list string;
  setupFiles : string
}.

Record UserConfig := {
  base : string;
  build_sourcemap : bool;
  preview_port : string;
  server_port : string;
  server_proxy : option (gmap string ProxyOptions);
  resolve_alias : list (string * string);
  plugins : list Plugin;
  test : TestOptions
}.

(** The constants [env] and [buildTarget] of [setConfig], read from the
    environment after the [.env] files were merged into it. *)
Definition env (processEnv : gmap string string) : string :=
  Js.or_else (processEnv !! "ENVIRONMENT") "local".

Definition buildTarget (processEnv : gmap string string) : string :=
  Js.or_else (processEnv !! "TARGET") "web".

Definition devPlugins (processEnv : gmap string string) (mode : string) : list Plugin :=
  let env := env processEnv in
  let buildTarget := buildTarget processEnv in
  let isDev := String.eqb mode "development" in
  ([ TargetBuildPlugin isDev buildTarget; IndexSwitchPlugin buildTarget ]
  ++ (if Js.truthy (processEnv !! "VITE_MOCKS") then [ ApiMockReplacerPlugin ] else [])
  ++ [ React ]
  ++ (if negb isDev
      then [ SplitVendorChunkPlugin;
             CustomPreloadPlugin (Js.or_else (Some (getBaseUrl processEnv false)) "") ]
      else [])
  ++ (if String.eqb buildTarget "web"
      then [ InjectWebServiceWorkerPlugin mode
               (getBaseUrl processEnv (String.eqb mode "development") +:+ "/assets") ]
      else [])
  ++ [ CopyPlugin isDev buildTarget env; InjectScriptIntoHtml isDev buildTarget env ])%list.

Definition proxy (processEnv : gmap string string) : option (gmap string ProxyOptions) :=
  if Js.truthy (processEnv !! "VITE_MOCKS")
  then None
  else Some {[ "/ws" :=
                 {| target :=
                      Js.or_else (processEnv !! "VITE_HYDRA_URL")
                        "wss://trading-web-gateway-rt-dev.demo.hydra.weareadaptive.com";
                    changeOrigin := true;
                    ws := true |} ]}.

(** [setConfig({ mode })]: [loadedEnv] is what [loadEnv(mode, process.cwd())]
    returns.  The result is the configuration and the new [process.env]. *)
Definition setConfig (processEnv loadedEnv : gmap string string) (mode : string)
  : UserConfig * gmap string string :=
  let processEnv := loadedEnv ∪ processEnv in
  let isDev := String.eqb mode "development" in
  let viteBaseUrl := if isDev then "/" else getBaseUrl processEnv false in
  let plugins :=
    ((if bool_decide (processEnv !! "STORYBOOK" = Some "true")
      then []
      else devPlugins processEnv mode)
     ++ [ FontFacePreload ])%list in
  ({| base := viteBaseUrl;
      build_sourcemap := true;
      preview_port := localPort;
      server_port := localPort;
      server_proxy := proxy processEnv;
      resolve_alias := [ ("@", "/src") ];
      plugins := plugins;
      test := {| globals := true;
                 environment := "jsdom";
                 include := [ "**/*.test.{tsx,ts}"; "**/__tests__/*" ];
                 setupFiles := "./src/setupTests.ts" |} |},
   processEnv).

End Config.

End ViteConfig.

(** ** The end of the credit RFQ end-to-end test *)

Module CreditE2E.

Inductive Verdict := Passed | Failed.

(** [btnTxt.split(" ")[2]]; [None] is [undefined]. *)
Definition tradeId (btnTxt : string) : option string :=
  Js.split " " btnTxt !! 2%nat.

(** [expect(actual).toEqual(expected)] on a string or [undefined] against
    a string. *)
Definition toEqual (actual : option string) (expected : string) : bool :=
  bool_decide (actual = Some expected).

(** The blotter page: the [innerText] of the first [div] whose text is
    exactly the text looked for, or [None] when the click on the button or
    the locator fails. *)
Definition BlotterPage := option string -> option string.

(** The test from the point where the text of the "view trade" button
    has been read.  [btnTxt] is [None] when an earlier step threw. *)
Definition test (btnTxt : option string) (rfqBlotterPage : BlotterPage) : Verdict :=
  match btnTxt with
  | None => Failed
  | Some btnTxt =>
      let tradeId := tradeId btnTxt in
      match rfqBlotterPage tradeId with
      | None => Failed
      | Some blotterId => if toEqual tradeId blotterId then Passed else Failed
      end
  end.

End CreditE2E.

(** ** The POSIX flavour of the runtime's [path] module

    A transcription of the runtime's own algorithms, used to run the plugins
    on concrete paths; the general results below hold for any [PathApi]. *)

Module Posix.
Import ViteConfig.Path.

(** The variables of the backward scan of [path.parse]; [-1] is [None]. *)
Record Scan := {
  startDot : option nat;
  startPart : nat;
  end_ : option nat;
  matchedSlash : bool;
  preDotState : Z;
  stopped : bool
}.

Definition scan_init : Scan :=
  {| startDot := None; startPart := 0; end_ := None;
     matchedSlash := true; preDotState := 0; stopped := false |}.

(** One turn of the loop, at index [i] holding the character [code]. *)
Definition scan_step (st : Scan) (ic : nat * ascii) : Scan :=
  let '(i, code) := ic in
  if stopped st then st else
  if Ascii.eqb code "/" then
    if negb (matchedSlash st)
    then {| startDot := startDot st; startPart := i + 1; end_ := end_ st;
            matchedSlash := matchedSlash st; preDotState := preDotState st;
            stopped := true |}
    else st
  else
    let st :=
      match end_ st with
      | None => {| startDot := startDot st; startPart := startPart st; end_ := Some (i + 1);
                   matchedSlash := false; preDotState := preDotState st;
                   stopped := false |}
      | Some _ => st
      end in
    if Ascii.eqb code "." then
      match startDot st with
      | None => {| startDot := Some i; startPart := startPart st; end_ := end_ st;
                   matchedSlash := matchedSlash st; preDotState := preDotState st;
                   stopped := false |}
      | Some _ => {| startDot := startDot st; startPart := startPart st; end_ := end_ st;
                     matchedSlash := matchedSlash st; preDotState := 1;
                     stopped := false |}
      end
    else
      match startDot st with
      | Some _ => {| startDot := startDot st; startPart := startPart st; end_ := end_ st;
                     matchedSlash := matchedSlash st; preDotState := (-1);
                     stopped := false |}
      | None => st
      end.

(** [path.slice(from, to)] *)
Definition slice (path : string) (from to : nat) : string :=
  String.substring from (to - from) path.

Definition parse (path : string) : ParsedPath :=
  match path with
  | EmptyString => {| root := ""; dir := ""; base := ""; ext := ""; name := "" |}
  | String c0 _ =>
      let isAbsolute := Ascii.eqb c0 "/" in
      let start := if isAbsolute then 1 else 0 in
      let indexed := combine (seq 0 (String.length path)) (list_ascii_of_string path) in
      let st := fold_left scan_step (rev (skipn start indexed)) scan_init in
      let dir :=
        if Nat.ltb 0 (startPart st) then slice path 0 (startPart st - 1)
        else if isAbsolute then "/" else "" in
      let root := if isAbsolute then "/" else "" in
      match end_ st with
      | None => {| root := root; dir := dir; base := ""; ext := ""; name := "" |}
      | Some e =>
          let from := if Nat.eqb (startPart st) 0 && isAbsolute then 1 else startPart st in
          match startDot st with
          | None =>
              {| root := root; dir := dir; base := slice path from e;
                 ext := ""; name := slice path from e |}
          | Some d =>
              if Z.eqb (preDotState st) 0 ||
                 (Z.eqb (preDotState st) 1 && Nat.eqb d (e - 1) && Nat.eqb d (startPart st + 1))
              then {| root := root; dir := dir; base := slice path from e;
                      ext := ""; name := slice path from e |}
              else {| root := root; dir := dir; base := slice path from e;
                      ext := slice path d e; name := slice path from d |}
          end
      end
  end.

(** The segments of a normalised path: empty segments and [.] are dropped,
    [..] removes the segment before it, or stays when there is none to
    remove and the path is relative. *)
Fixpoint normalize_segments (allowAboveRoot : bool) (res : list string)
    (segments : list string) : list string :=
  match segments with
  | [] => res
  | seg :: rest =>
      if String.eqb seg "" || String.eqb seg "." then
        normalize_segments allowAboveRoot res rest
      else if String.eqb seg ".." then
        match List.rev res with
        | last :: before =>
            if String.eqb last ".."
            then normalize_segments allowAboveRoot
                   (if allowAboveRoot then res ++ [".."] else res)%list rest
            else normalize_segments allowAboveRoot (List.rev before) rest
        | [] =>
            normalize_segments allowAboveRoot
              (if allowAboveRoot then [".."] else []) rest
        end
      else normalize_segments allowAboveRoot (res ++ [seg])%list rest
  end.

Fixpoint join_with (sep : string) (parts : list string) : string :=
  match parts with
  | [] => ""
  | [p] => p
  | p :: rest => p +:+ sep +:+ join_with sep rest
  end.

Definition normalize (path : string) : string :=
  match path with
  | EmptyString => "."
  | String c0 _ =>
      let isAbsolute := Ascii.eqb c0 "/" in
      let trailingSeparator := Js.endsWith "/" path in
      let body :=
        join_with "/" (normalize_segments (negb isAbsolute) [] (Js.split "/" path)) in
      if String.eqb body "" then
        if isAbsolute then "/" else if trailingSeparator then "./" else "."
      else
        let body := if trailingSeparator then body +:+ "/" else body in
        if isAbsolute then "/" +:+ body else body
  end.

(** [path.join(...args)] *)
Definition join (args : list string) : string :=
  match List.filter (fun a => negb (String.eqb a "")) args with
  | [] => "."
  | parts => normalize (join_with "/" parts)
  end.

#[export] Instance posix : PathApi := {| ViteConfig.Path.parse := parse; ViteConfig.Path.join := join |}.

End Posix.

(** ** Contents of the copied manifests, as templates

    A manifest is text with placeholders.  A template lists its pieces; it is
    rendered with the placeholders written out, or filled with a value for
    each of them. *)

Module Template.

Inductive Placeholder := BaseUrl | EnvName | EnvSuffix | OpenfinRuntime.

(** The text of a placeholder, without its opening bracket. *)
Definition label (p : Placeholder) : string :=
  match p with
  | BaseUrl => "BASE_URL>"
  | EnvName => "ENV_NAME>"
  | EnvSuffix => "ENV_SUFFIX>"
  | OpenfinRuntime => "OPENFIN_RUNTIME>"
  end.

Definition marker (p : Placeholder) : string := String "<" (label p).

#[export] Instance Placeholder_eq_dec : EqDecision Placeholder.
Proof. intros p q. unfold Decision. decide equality. Defined.

(** The valuation [v] with [x] for the placeholder [p0]. *)
Definition update (v : Placeholder -> option string) (p0 : Placeholder) (x : string)
  : Placeholder -> option string :=
  fun p => if decide (p = p0) then Some x else v p.

Inductive Piece :=
| Text (s : string)
| Hole (p : Placeholder).

(** The template with the placeholders for which [v] has a value replaced
    by it, the others written out. *)
Fixpoint fill_some (v : Placeholder -> option string) (t : list Piece) : string :=
  match t with
  | [] => ""
  | Text s :: t' => s +:+ fill_some v t'
  | Hole p :: t' => default (marker p) (v p) +:+ fill_some v t'
  end.

Definition render (t : list Piece) : string := fill_some (fun _ => None) t.

Definition fill (v : Placeholder -> string) (t : list Piece) : string :=
  fill_some (fun p => Some (v p)) t.

(** Text that holds no opening bracket. *)
Fixpoint plain_texts (t : list Piece) : bool :=
  match t with
  | [] => true
  | Text s :: t' => negb (Js.has_char "<" s) && plain_texts t'
  | Hole _ :: t' => plain_texts t'
  end.

(** A value that holds neither an opening bracket nor a dollar sign. *)
Definition plain_value (s : string) : bool :=
  negb (Js.has_char "<" s) && negb (Js.has_char "$" s).

(** The template with the text [b] standing where the base URL goes. *)
Fixpoint subst_base (b : string) (t : list Piece) : list Piece :=
  match t with
  | [] => []
  | Hole BaseUrl :: t' => Text b :: subst_base b t'
  | piece :: t' => piece :: subst_base b t'
  end.

(** The template with [f] applied to each stretch of text between two
    placeholders: the stretch before the first placeholder starts with
    [acc], and consecutive texts make one stretch. *)
Fixpoint map_runs (f : string -> string) (acc : string) (t : list Piece) : list Piece :=
  match t with
  | [] => [Text (f acc)]
  | Text s :: t' => map_runs f (acc +:+ s) t'
  | Hole p :: t' => Text (f acc) :: Hole p :: map_runs f "" t'
  end.

Section Values.
Variable localPort : string.

(** What [copyPlugin]'s transform puts in the place of each placeholder. *)
Definition value (processEnv : gmap string string) (isDev : bool) (env : string)
    (p : Placeholder) : string :=
  match p with
  | BaseUrl => ViteConfig.getBaseUrl localPort processEnv (isDev || String.eqb env "local")
  | EnvName => env
  | EnvSuffix => if String.eqb env "prod" then "" else " " +:+ Js.toUpperCase env
  | OpenfinRuntime => ViteConfig.OPENFIN_RUNTIME
  end.

(** The template once the base URL alone has been put in. *)
Definition with_base_url (processEnv : gmap string string) (isDev : bool) (env : string)
    (t : list Piece) : string :=
  fill_some (fun p => match p with
                      | BaseUrl => Some (value processEnv isDev env BaseUrl)
                      | _ => None
                      end) t.

End Values.

End Template.

(** ** Sample data *)

Module Samples.
Import ViteConfig.

(** A file system given by the listing of its directories and the set of
    paths that exist. *)
Definition fs_of (dirs : gmap string (list string)) (paths : gset string) : FileSystem :=
  {| readdirSync := fun d => dirs !! d;
     statSync := fun p => bool_decide (p ∈ paths) |}.

(** A services directory holding a module with a dotted name and a plain
    one, each with its OpenFin variant. *)
Definition services_fs : FileSystem :=
  fs_of {[ "./src/services" :=
             [ "trades.service.ts"; "trades.service.openfin.ts";
               "trades.ts"; "trades.openfin.ts" ] ]}
        ∅.

(** A manifest with each of the placeholders. *)
Definition manifest : list Template.Piece :=
  [ Template.Text "name: Reactive Trader"; Template.Hole Template.EnvSuffix;
    Template.Text ", env: "; Template.Hole Template.EnvName;
    Template.Text ", start_url: "; Template.Hole Template.BaseUrl;
    Template.Text "/, runtime: "; Template.Hole Template.OpenfinRuntime ].

(** A container that reports every window as maximized, and one whose
    state query fails. *)
Definition maximized_container : Host.Container :=
  fun _ _ m =>
    match m with
    | Host.getState => Host.Fulfilled "maximized"
    | _ => Host.Fulfilled tt
    end.

Definition eurusd : FxTrades.FxTrade :=
  {| FxTrades.tradeId := "1"; FxTrades.symbol := "EURUSD";
     FxTrades.notional := 1000000; FxTrades.spotRate := 109;
     FxTrades.status := "Done" |}.

End Samples.

(** ** Notions used to state further properties *)

Module Notions.

(** The number of occurrences of the character [c] in [s]. *)
Fixpoint count_char (c : ascii) (s : string) : nat :=
  match s with
  | EmptyString => 0
  | String a s' => (if Ascii.eqb c a then 1 else 0) + count_char c s'
  end.

(** [d] for the character [c], any other character as it is. *)
Definition swap_char (c d x : ascii) : ascii :=
  if Ascii.eqb c x then d else x.

(** Text of ASCII characters only: on such text the case conversion of
    [Js] is that of the runtime. *)
Fixpoint ascii_text (s : string) : bool :=
  match s with
  | EmptyString => true
  | String c s' => Nat.ltb (nat_of_ascii c) 128 && ascii_text s'
  end.

(** The environment variables the configuration reads. *)
Definition config_keys : list string :=
  [ "DOMAIN"; "URL_PATH"; "ENVIRONMENT"; "TARGET"; "VITE_MOCKS"; "STORYBOOK";
    "VITE_HYDRA_URL" ].

End Notions.

(** * Properties *)

(** ** Appending texts *)

Lemma append_cons (a : ascii) (s t : string) : String a s +:+ t = String a (s +:+ t).
Proof. reflexivity. Qed.

Lemma append_nil (t : string) : "" +:+ t = t.
Proof. reflexivity. Qed.

(** ** Splitting at a character *)

Section SplitChar.

Variable c : ascii.

Lemma split_aux_without (w : string) :
  Js.has_char c w = false -> Js.split_aux (String c "") 0 w = (w, []).
Proof.
  induction w as [| a w IH]; simpl; [reflexivity |].
  intros [Ha Hw]%orb_false_iff. rewrite Ha, (IH Hw). reflexivity.
Qed.

Lemma split_aux_at (w rest : string) :
  Js.has_char c w = false ->
  Js.split_aux (String c "") 0 (w +:+ String c rest) =
  (w, Js.split (String c "") rest).
Proof.
  induction w as [| a w IH]; simpl.
  - intros _. rewrite Ascii.eqb_refl. unfold Js.split.
    by destruct (Js.split_aux (String c "") 0 rest).
  - intros [Ha Hw]%orb_false_iff. rewrite Ha, (IH Hw). reflexivity.
Qed.

(** A piece without the separator, followed by the separator, is the first
    piece of the split; the rest is split on its own. *)
Lemma split_cons (w rest : string) :
  Js.has_char c w = false ->
  Js.split (String c "") (w +:+ String c rest) = w :: Js.split (String c "") rest.
Proof.
  intros Hw. unfold Js.split at 1. by rewrite split_aux_at.
Qed.

Lemma split_last (w : string) :
  Js.has_char c w = false -> Js.split (String c "") w = [w].
Proof.
  intros Hw. unfold Js.split. by rewrite split_aux_without.
Qed.

End SplitChar.

(** ** Global replacement *)

Lemma startsWith_append (p s : string) : Js.startsWith p (p +:+ s) = true.
Proof.
  induction p as [| a p IH]; [reflexivity |].
  rewrite append_cons. simpl. by rewrite Ascii.eqb_refl.
Qed.

Lemma getSubstitution_verbatim (matched before after rep : string) :
  Js.has_char "$" rep = false ->
  Js.getSubstitution matched before after rep = rep.
Proof.
  induction rep as [| c r IH]; [reflexivity |].
  cbn [Js.has_char Js.getSubstitution]. intros [Hc Hr]%orb_false_iff.
  rewrite Ascii.eqb_sym, Hc. by rewrite (IH Hr).
Qed.

(** A replacement text without a dollar sign is put in as it stands. *)
Lemma replace_aux_verbatim (pat rep : string) :
  Js.has_char "$" rep = false ->
  forall s before skip,
    Js.replace_aux pat rep before skip s = Js.replace_verbatim pat rep skip s.
Proof.
  intros Hrep. induction s as [| c s IH]; intros before skip; [reflexivity |].
  simpl. destruct skip as [| k].
  - rewrite !IH. by rewrite getSubstitution_verbatim.
  - apply IH.
Qed.

(** A text in which the pattern does not occur is left as it is. *)
Lemma replace_aux_absent (pat rep : string) :
  forall s before,
    Js.includes pat s = false -> Js.replace_aux pat rep before 0 s = s.
Proof.
  induction s as [| c s IH]; intros before; [reflexivity |].
  simpl Js.includes. intros [Hhere Hlater]%orb_false_iff.
  simpl. simpl in Hhere. rewrite Hhere. by rewrite IH.
Qed.

Section ReplaceMarker.

(** The pattern is a bracket followed by a text [lbl]. *)
Variable lbl rep : string.

Let pat : string := String "<" lbl.

Lemma replace_verbatim_text (x rest : string) :
  Js.has_char "<" x = false ->
  Js.replace_verbatim pat rep 0 (x +:+ rest) = x +:+ Js.replace_verbatim pat rep 0 rest.
Proof.
  induction x as [| a x IH]; [reflexivity |].
  simpl Js.has_char. intros [Ha Hx]%orb_false_iff.
  rewrite !append_cons. simpl. rewrite Ha. by rewrite (IH Hx).
Qed.

Lemma replace_verbatim_skip (x rest : string) :
  Js.replace_verbatim pat rep (String.length x) (x +:+ rest) =
  Js.replace_verbatim pat rep 0 rest.
Proof.
  induction x as [| a x IH]; [reflexivity |].
  rewrite append_cons. simpl. exact IH.
Qed.

Lemma replace_verbatim_hit (rest : string) :
  Js.replace_verbatim pat rep 0 (pat +:+ rest) =
  rep +:+ Js.replace_verbatim pat rep 0 rest.
Proof.
  unfold pat. rewrite append_cons.
  change (Js.replace_verbatim (String "<" lbl) rep 0 (String "<" (lbl +:+ rest)))
    with (if Js.startsWith (String "<" lbl) (String "<" (lbl +:+ rest))
          then rep +:+ Js.replace_verbatim (String "<" lbl) rep
                         (String.length (String "<" lbl) - 1) (lbl +:+ rest)
          else String "<" (Js.replace_verbatim (String "<" lbl) rep 0 (lbl +:+ rest))).
  rewrite <- append_cons, startsWith_append.
  replace (String.length (String "<" lbl) - 1) with (String.length lbl) by (simpl; lia).
  by rewrite replace_verbatim_skip.
Qed.

End ReplaceMarker.

(** ** Values read from the environment *)

Lemma truthy_iff (v : option string) :
  Js.truthy v = true <-> exists s, v = Some s /\ s <> "".
Proof.
  destruct v as [s |]; simpl.
  - rewrite negb_true_iff, String.eqb_neq. split.
    + intros Hs. by exists s.
    + intros (s' & [= <-] & Hs). exact Hs.
  - split; [discriminate | intros (s & Hs & _); discriminate].
Qed.

Lemma truthy_false_iff (v : option string) :
  Js.truthy v = false <-> v = None \/ v = Some "".
Proof.
  destruct v as [s |]; simpl.
  - rewrite negb_false_iff, String.eqb_eq. split.
    + intros ->. by right.
    + intros [Hs | [= ->]]; [discriminate | reflexivity].
  - split; [by left | reflexivity].
Qed.

Lemma or_else_set (v : option string) (d s : string) :
  v = Some s -> s <> "" -> Js.or_else v d = s.
Proof.
  intros -> Hs. simpl. apply String.eqb_neq in Hs. by rewrite Hs.
Qed.

Lemma or_else_unset (v : option string) (d : string) :
  Js.truthy v = false -> Js.or_else v d = d.
Proof.
  intros [-> | ->]%truthy_false_iff; reflexivity.
Qed.

Lemma or_else_empty (s : string) : Js.or_else (Some s) "" = s.
Proof.
  simpl. destruct (String.eqb s "") eqn:Hs; [| reflexivity].
  by apply String.eqb_eq in Hs.
Qed.

(** ** Running handlers *)

Section HandlerTraces.
Import Host.

Variable host : Container.

Lemma run_bind {A B : Type} (p : Prog A) (f : A -> Prog B) (past : list Event) :
  run host (bind p f) past =
  let '(seen, a) := run host p past in run host (f a) seen.
Proof.
  revert past. induction p as [a | w m k IH | c k IH]; intros past; simpl.
  - reflexivity.
  - apply IH.
  - apply IH.
Qed.

(** A [then] callback runs exactly when the promise is fulfilled. *)
Lemma run_then {A B : Type} (p : Prog (Settled A)) (f : A -> Prog (Settled B))
    (past : list Event) :
  run host (then_ p f) past =
  match run host p past with
  | (seen, Fulfilled a) => run host (f a) seen
  | (seen, Rejected e) => (seen, Rejected e)
  end.
Proof.
  unfold then_. rewrite run_bind.
  destruct (run host p past) as [seen [a | e]]; reflexivity.
Qed.

End HandlerTraces.

(** ** The FX trades grid *)

(** C1: a row click broadcasts exactly when the page has the interop bridge;
    the one context it then broadcasts is the instrument context of the
    clicked trade's symbol, and without the bridge the handler makes no call
    at all. *)
Theorem tryBroadcastContext_broadcasts_iff_fdc3
    (host : Host.Container) (window : FxTrades.Window) (trade : FxTrades.FxTrade) :
  let calls := Host.trace host (FxTrades.tryBroadcastContext window trade) in
  let context :=
    {| Host.type := "fdc3.instrument";
       Host.id := {| Host.ticker := FxTrades.symbol trade |} |} in
  ((exists c, In (Host.Fdc3Broadcast c) calls) <-> is_Some (FxTrades.fdc3 window)) /\
  (calls = [Host.Fdc3Broadcast context] <-> is_Some (FxTrades.fdc3 window)) /\
  (calls = [] <-> FxTrades.fdc3 window = None).
Proof.
  unfold FxTrades.tryBroadcastContext, Host.trace.
  destruct (FxTrades.fdc3 window) as [agent |] eqn:Hbridge; simpl.
  - split; [| split].
    + split; intros _; [by eexists | eexists; by left].
    + split; intros _; [by eexists | reflexivity].
    + split; intros Hx; discriminate.
  - split; [| split].
    + split; intros Hx.
      * destruct Hx as [c []].
      * by destruct Hx.
    + split; intros Hx; [discriminate | by destruct Hx].
    + split; reflexivity.
Qed.

(** C1, on a sample: with the bridge on the page, a click on a EURUSD trade
    broadcasts the instrument context of EURUSD and nothing else. *)
Lemma tryBroadcastContext_broadcasts_eurusd :
  Host.trace Samples.maximized_container
    (FxTrades.tryBroadcastContext
       {| FxTrades.fdc3 := Some FxTrades.desktopAgent |} Samples.eurusd) =
  [ Host.Fdc3Broadcast
      {| Host.type := "fdc3.instrument"; Host.id := {| Host.ticker := "EURUSD" |} |} ].
Proof.
  destruct (tryBroadcastContext_broadcasts_iff_fdc3 Samples.maximized_container
              {| FxTrades.fdc3 := Some FxTrades.desktopAgent |} Samples.eurusd)
    as (_ & Hcalls & _).
  apply Hcalls. by eexists.
Defined.

(** C2: a row is marked rejected exactly when its status is the text
    "Rejected"; any other status, a differently cased one too, leaves it
    unmarked. *)
Theorem isRejected_iff_status_Rejected (row : FxTrades.FxTrade) :
  (FxTrades.isRejected row = true <-> FxTrades.status row = "Rejected") /\
  (FxTrades.isRejected row = false <-> FxTrades.status row <> "Rejected") /\
  (forall s, Js.toLowerCase s = "rejected" -> s <> "Rejected" ->
     FxTrades.status row = s -> FxTrades.isRejected row = false).
Proof.
  unfold FxTrades.isRejected. repeat split.
  - apply String.eqb_eq.
  - apply String.eqb_eq.
  - apply String.eqb_neq.
  - apply String.eqb_neq.
  - intros s _ Hs Hrow. apply String.eqb_neq. congruence.
Qed.

(** ** The LimitChecker window frame *)

Section WindowFrame.
Import Host.

Variable host : Container.
Variable win : WindowId.

(** The calls of the maximize handler, by the way the state query settles. *)
Lemma maximize_trace :
  trace host (LimitCheckerWindowFrame.maximize (LimitCheckerWindowFrame.headerControlHandlers win)) =
  WindowCall win getState ::
  match host [] win getState with
  | Fulfilled state =>
      [WindowCall win (if String.eqb state "maximized" then restore else maximize)]
  | Rejected _ => []
  end.
Proof.
  unfold trace. simpl LimitCheckerWindowFrame.maximize.
  rewrite run_then. simpl.
  destruct (host [] win getState) as [state | reason]; [| reflexivity].
  destruct (String.eqb state "maximized"); reflexivity.
Qed.

End WindowFrame.

(** C3: each header control of the LimitChecker frame only calls the
    container's window object of the current window: close calls [close],
    minimize calls [minimize], and maximize queries [getState] and, once the
    state is known, calls either [restore] or [maximize]; a failed query is
    followed by no call.  No handler does anything else. *)
Theorem headerControlHandlers_delegate_to_window
    (host : Host.Container) (win : Host.WindowId) :
  let h := LimitCheckerWindowFrame.headerControlHandlers win in
  let closing := Host.trace host (LimitCheckerWindowFrame.close h) in
  let minimizing := Host.trace host (LimitCheckerWindowFrame.minimize h) in
  let maximizing := Host.trace host (LimitCheckerWindowFrame.maximize h) in
  closing = [Host.WindowCall win Host.close] /\
  minimizing = [Host.WindowCall win Host.minimize] /\
  (exists next, maximizing = Host.WindowCall win Host.getState :: next /\
     match host [] win Host.getState with
     | Host.Fulfilled _ =>
         next = [Host.WindowCall win Host.restore] \/
         next = [Host.WindowCall win Host.maximize]
     | Host.Rejected _ => next = []
     end) /\
  (forall e, In e (closing ++ minimizing ++ maximizing) ->
     exists m, e = Host.WindowCall win m).
Proof.
  cbv zeta. rewrite maximize_trace.
  split; [reflexivity |]. split; [reflexivity |]. split.
  - eexists. split; [reflexivity |].
    destruct (host [] win Host.getState) as [state | reason]; [| reflexivity].
    destruct (String.eqb state "maximized"); [by left | by right].
  - intros e He. unfold Host.trace in He. simpl in He.
    destruct He as [<- | [<- | [<- | He]]]; eauto.
    destruct (host [] win Host.getState) as [state | reason]; simpl in He.
    + destruct He as [<- | []]. eauto.
    + destruct He.
Qed.

(** C9: the maximize control is a toggle: it queries the state of the window,
    then calls [restore] when the state reported is "maximized" and
    [maximize] for any other state reported; it never calls both. *)
Theorem maximize_handler_toggles (host : Host.Container) (win : Host.WindowId) :
  let calls :=
    Host.trace host
      (LimitCheckerWindowFrame.maximize (LimitCheckerWindowFrame.headerControlHandlers win)) in
  (host [] win Host.getState = Host.Fulfilled "maximized" ->
     calls = [Host.WindowCall win Host.getState; Host.WindowCall win Host.restore]) /\
  (forall state, state <> "maximized" ->
     host [] win Host.getState = Host.Fulfilled state ->
     calls = [Host.WindowCall win Host.getState; Host.WindowCall win Host.maximize]) /\
  (In (Host.WindowCall win Host.restore) calls ->
   In (Host.WindowCall win Host.maximize) calls -> False) /\
  (forall w m, In (Host.WindowCall w m) calls ->
     m = Host.getState \/ m = Host.restore \/ m = Host.maximize).
Proof.
  cbv zeta. rewrite maximize_trace.
  split; [| split; [| split]].
  - intros ->. reflexivity.
  - intros state Hstate ->. apply String.eqb_neq in Hstate. by rewrite Hstate.
  - destruct (host [] win Host.getState) as [state | reason].
    + destruct (String.eqb state "maximized"); simpl; intros Hr Hm.
      * destruct Hm as [Hm | [Hm | []]]; discriminate.
      * destruct Hr as [Hr | [Hr | []]]; discriminate.
    + simpl. intros [Hr | []]. discriminate.
  - intros w m Hin.
    destruct (host [] win Host.getState) as [state | reason]; simpl in Hin.
    + destruct Hin as [Hin | [Hin | []]]; inversion Hin; subst; auto.
      destruct (String.eqb state "maximized"); auto.
    + destruct Hin as [Hin | []]. inversion Hin; auto.
Qed.

(** C9, on a sample: in a container that reports the window as maximized,
    the control restores it. *)
Lemma maximize_restores_maximized_window :
  Host.trace Samples.maximized_container
    (LimitCheckerWindowFrame.maximize (LimitCheckerWindowFrame.headerControlHandlers 7)) =
  [ Host.WindowCall 7 Host.getState; Host.WindowCall 7 Host.restore ].
Proof.
  destruct (maximize_handler_toggles Samples.maximized_container 7) as (Hrestore & _).
  apply Hrestore. reflexivity.
Defined.

(** ** The configuration *)

Section ConfigProperties.
Import ViteConfig.

Variable localPort : string.

Lemma devPlugins_target_plugins (processEnv : gmap string string) (mode : string) :
  let isDev := String.eqb mode "development" in
  In (TargetBuildPlugin isDev (buildTarget processEnv)) (devPlugins localPort processEnv mode) /\
  In (IndexSwitchPlugin (buildTarget processEnv)) (devPlugins localPort processEnv mode) /\
  In (CopyPlugin isDev (buildTarget processEnv) (env processEnv))
     (devPlugins localPort processEnv mode).
Proof.
  unfold devPlugins. cbv zeta. repeat split.
  - simpl. by left.
  - simpl. right. by left.
  - rewrite !in_app_iff. do 5 right. simpl. by left.
Qed.

Lemma setConfig_env (processEnv loadedEnv : gmap string string) (mode : string) :
  (setConfig localPort processEnv loadedEnv mode).2 = loadedEnv ∪ processEnv.
Proof. reflexivity. Qed.

Lemma setConfig_plugins (processEnv loadedEnv : gmap string string) (mode : string) :
  (loadedEnv ∪ processEnv) !! "STORYBOOK" <> Some "true" ->
  plugins (setConfig localPort processEnv loadedEnv mode).1 =
  devPlugins localPort (loadedEnv ∪ processEnv) mode ++ [FontFacePreload].
Proof.
  intros Hstory. unfold setConfig. simpl.
  by rewrite bool_decide_eq_false_2.
Qed.

End ConfigProperties.

(** C10: with [TARGET] unset the build target is "web", and with
    [ENVIRONMENT] unset the environment name is "local"; so a build with
    no configuration at all has the target "web" and the environment
    "local", and its plugins are made from them. *)
Theorem setConfig_defaults
    (localPort : string) (processEnv loadedEnv : gmap string string) (mode : string) :
  let env' := (ViteConfig.setConfig localPort processEnv loadedEnv mode).2 in
  let isDev := String.eqb mode "development" in
  (env' !! "TARGET" = None ->
     ViteConfig.buildTarget env' = "web" /\
     In (ViteConfig.TargetBuildPlugin isDev "web") (ViteConfig.devPlugins localPort env' mode) /\
     In (ViteConfig.IndexSwitchPlugin "web") (ViteConfig.devPlugins localPort env' mode)) /\
  (env' !! "ENVIRONMENT" = None ->
     ViteConfig.env env' = "local" /\
     In (ViteConfig.CopyPlugin isDev (ViteConfig.buildTarget env') "local")
        (ViteConfig.devPlugins localPort env' mode)) /\
  ViteConfig.buildTarget (ViteConfig.setConfig localPort ∅ ∅ mode).2 = "web" /\
  ViteConfig.env (ViteConfig.setConfig localPort ∅ ∅ mode).2 = "local".
Proof.
  cbv zeta. rewrite setConfig_env.
  pose proof (devPlugins_target_plugins localPort (loadedEnv ∪ processEnv) mode) as Hp.
  cbv zeta in Hp. destruct Hp as (Htb & His & Hcp).
  split; [| split; [| split]].
  - intros Hunset.
    assert (ViteConfig.buildTarget (loadedEnv ∪ processEnv) = "web") as Hweb.
    { unfold ViteConfig.buildTarget. by rewrite Hunset. }
    rewrite Hweb in Htb, His. auto.
  - intros Hunset.
    assert (ViteConfig.env (loadedEnv ∪ processEnv) = "local") as Hlocal.
    { unfold ViteConfig.env. by rewrite Hunset. }
    rewrite Hlocal in Hcp. auto.
  - reflexivity.
  - reflexivity.
Qed.

(** C10, on a sample: a build for the environment "uat" with no target
    given is a web build. *)
Lemma setConfig_defaults_uat :
  ViteConfig.buildTarget
    (ViteConfig.setConfig "1917" {[ "ENVIRONMENT" := "uat" ]} ∅ "production").2 = "web".
Proof.
  destruct (setConfig_defaults "1917" {[ "ENVIRONMENT" := "uat" ]} ∅ "production")
    as (Htarget & _).
  apply Htarget. by vm_compute.
Defined.

Lemma devPlugins_one_target
    (localPort : string) (processEnv : gmap string string) (mode : string)
    (p : ViteConfig.Plugin) (t : string) :
  In p (ViteConfig.devPlugins localPort processEnv mode) ->
  ViteConfig.plugin_target p = Some t ->
  t = ViteConfig.buildTarget processEnv.
Proof.
  unfold ViteConfig.devPlugins. cbv zeta. rewrite !in_app_iff. simpl.
  intros Hin Ht.
  repeat match goal with
         | H : _ \/ _ |- _ => destruct H as [H | H]
         | H : In _ (if ?b then _ else _) |- _ => destruct b; simpl in H
         | H : False |- _ => destruct H
         | H : _ = p |- _ => subst p; simpl in Ht
         end;
  congruence.
Qed.

(** C4, as the code has it: the build target is read from [TARGET]; a
    non-empty value is used as it is, an unset or empty one gives "web", so
    the target is one of "web", "openfin" and "finsemble" whenever [TARGET]
    is unset, empty or one of the three.  The target-build, index-switch and
    copy plugins are made from this one value, and so is every plugin of
    the configuration that is made from a target. *)
Theorem buildTarget_selected_by_TARGET `{ViteConfig.Path.PathApi}
    (localPort : string) (processEnv loadedEnv : gmap string string) (mode : string) :
  let config := (ViteConfig.setConfig localPort processEnv loadedEnv mode).1 in
  let env' := (ViteConfig.setConfig localPort processEnv loadedEnv mode).2 in
  let isDev := String.eqb mode "development" in
  let target := ViteConfig.buildTarget env' in
  (forall t, env' !! "TARGET" = Some t -> t <> "" -> target = t) /\
  (Js.truthy (env' !! "TARGET") = false -> target = "web") /\
  (Js.truthy (env' !! "TARGET") = false \/
   (exists t, env' !! "TARGET" = Some t /\ In t ["web"; "openfin"; "finsemble"]) ->
   In target ["web"; "openfin"; "finsemble"]) /\
  (env' !! "STORYBOOK" <> Some "true" ->
     In (ViteConfig.TargetBuildPlugin isDev target) (ViteConfig.plugins config) /\
     In (ViteConfig.IndexSwitchPlugin target) (ViteConfig.plugins config) /\
     In (ViteConfig.CopyPlugin isDev target (ViteConfig.env env')) (ViteConfig.plugins config)) /\
  (forall p t, In p (ViteConfig.plugins config) ->
     ViteConfig.plugin_target p = Some t -> t = target) /\
  ViteConfig.plugin_resolveId (ViteConfig.TargetBuildPlugin isDev target) =
    Some (ViteConfig.targetBuildPlugin isDev target) /\
  ViteConfig.plugin_resolveId (ViteConfig.IndexSwitchPlugin target) =
    Some (ViteConfig.indexSwitchPlugin target) /\
  ViteConfig.plugin_copy localPort env'
      (ViteConfig.CopyPlugin isDev target (ViteConfig.env env')) =
    Some (ViteConfig.copyPlugin localPort env' isDev target (ViteConfig.env env')).
Proof.
  cbv zeta. rewrite setConfig_env.
  set (env' := loadedEnv ∪ processEnv).
  assert (forall t, env' !! "TARGET" = Some t -> t <> "" ->
            ViteConfig.buildTarget env' = t) as Hset.
  { intros t Ht Hne. unfold ViteConfig.buildTarget. by apply or_else_set. }
  assert (Js.truthy (env' !! "TARGET") = false ->
            ViteConfig.buildTarget env' = "web") as Hunset.
  { intros Hf. unfold ViteConfig.buildTarget. by apply or_else_unset. }
  split; [exact Hset |]. split; [exact Hunset |]. split; [| split; [| split]].
  - intros [Hf | (t & Ht & Hin)].
    + rewrite (Hunset Hf). simpl. auto.
    + assert (t <> "") as Hne.
      { simpl in Hin. intros ->. intuition discriminate. }
      by rewrite (Hset t Ht Hne).
  - intros Hstory. rewrite (setConfig_plugins localPort _ _ _ Hstory).
    pose proof (devPlugins_target_plugins localPort env' mode) as Hp.
    cbv zeta in Hp. destruct Hp as (Htb & His & Hcp).
    rewrite !in_app_iff. auto.
  - intros p t Hin Ht. unfold ViteConfig.setConfig in Hin. simpl in Hin.
    fold env' in Hin. apply in_app_iff in Hin. destruct Hin as [Hin | Hin].
    + destruct (bool_decide (env' !! "STORYBOOK" = Some "true")); [destruct Hin |].
      by apply (devPlugins_one_target localPort env' mode p t).
    + simpl in Hin. destruct Hin as [<- | []]. discriminate.
  - repeat split.
Qed.

(** C4, on a sample: with [TARGET] set to "finsemble" the build target is
    "finsemble". *)
Lemma buildTarget_finsemble :
  ViteConfig.buildTarget
    (ViteConfig.setConfig "1917" {[ "TARGET" := "finsemble" ]} ∅ "production").2 =
  "finsemble".
Proof.
  destruct (buildTarget_selected_by_TARGET (H := Posix.posix)
              "1917" {[ "TARGET" := "finsemble" ]} ∅ "production") as (Hset & _).
  apply Hset; by vm_compute.
Defined.

(** C4, counterexample: with [TARGET] set to "electron" the build target is
    "electron", which is none of the three values, and the plugins are made
    from it. *)
Lemma buildTarget_outside_declared_values :
  let run := ViteConfig.setConfig "1917" {[ "TARGET" := "electron" ]} ∅ "production" in
  ViteConfig.buildTarget run.2 = "electron" /\
  ~ In (ViteConfig.buildTarget run.2) ["web"; "openfin"; "finsemble"] /\
  In (ViteConfig.TargetBuildPlugin false "electron") (ViteConfig.plugins run.1) /\
  In (ViteConfig.CopyPlugin false "electron" "local") (ViteConfig.plugins run.1).
Proof.
  cbv zeta. split; [by vm_compute |]. split; [| split].
  - vm_compute. intros [Hx | [Hx | [Hx | []]]]; discriminate.
  - vm_compute. auto.
  - vm_compute. auto 10.
Qed.



(** ** Filling the placeholders of a manifest *)

Section FillPlaceholders.
Import Template.

Lemma label_plain (p : Placeholder) : Js.has_char "<" (label p) = false.
Proof. by destruct p. Qed.

(** Where another placeholder stands, the pattern does not match. *)
Lemma marker_mismatch (p0 p : Placeholder) (rest : string) :
  p <> p0 -> Js.startsWith (marker p0) (marker p +:+ rest) = false.
Proof. destruct p0, p; intros Hne; try congruence; reflexivity. Qed.

Lemma replace_verbatim_other_marker (p0 p : Placeholder) (rep rest : string) :
  p <> p0 ->
  Js.replace_verbatim (marker p0) rep 0 (marker p +:+ rest) =
  marker p +:+ Js.replace_verbatim (marker p0) rep 0 rest.
Proof.
  intros Hne. pose proof (marker_mismatch p0 p rest Hne) as Hmiss.
  unfold marker in *. rewrite !append_cons in *.
  cbn [Js.replace_verbatim]. rewrite Hmiss.
  by rewrite replace_verbatim_text by apply label_plain.
Qed.

(** Replacing the marker of one placeholder, in a template filled in part,
    fills that placeholder. *)
Lemma replace_verbatim_fill_some
    (v : Placeholder -> option string) (p0 : Placeholder) (x : string) (t : list Piece) :
  v p0 = None ->
  (forall p y, v p = Some y -> Js.has_char "<" y = false) ->
  plain_texts t = true ->
  Js.replace_verbatim (marker p0) x 0 (fill_some v t) = fill_some (update v p0 x) t.
Proof.
  intros Hp0 Hv. induction t as [| [s | p] t IH]; [reflexivity | |].
  - cbn [plain_texts fill_some]. intros [Hs Ht]%andb_true_iff.
    apply negb_true_iff in Hs.
    unfold marker. by rewrite replace_verbatim_text, <- (IH Ht).
  - cbn [plain_texts fill_some]. intros Ht. unfold update at 1.
    destruct (decide (p = p0)) as [-> | Hne].
    + rewrite Hp0. cbn [default]. unfold marker.
      rewrite replace_verbatim_hit. fold (marker p0). by rewrite (IH Ht).
    + destruct (v p) as [y |] eqn:Hy; cbn [default].
      * unfold marker. rewrite replace_verbatim_text by (by apply (Hv p)).
        fold (marker p0). by rewrite (IH Ht).
      * rewrite replace_verbatim_other_marker by done. by rewrite (IH Ht).
Qed.

Lemma fill_some_ext (v w : Placeholder -> option string) (t : list Piece) :
  (forall p, v p = w p) -> fill_some v t = fill_some w t.
Proof.
  intros Hvw. induction t as [| [s | p] t IH]; [reflexivity | |]; cbn [fill_some].
  - by rewrite IH.
  - by rewrite IH, Hvw.
Qed.

(** [replaceAll] of a marker by a plain value. *)
Lemma replaceAll_fill_some
    (v : Placeholder -> option string) (p0 : Placeholder) (x : string) (t : list Piece) :
  v p0 = None ->
  (forall p y, v p = Some y -> Js.has_char "<" y = false) ->
  plain_texts t = true ->
  Js.has_char "$" x = false ->
  Js.replaceAll (marker p0) x (fill_some v t) = fill_some (update v p0 x) t.
Proof.
  intros Hp0 Hv Ht Hx. unfold Js.replaceAll.
  rewrite replace_aux_verbatim by exact Hx.
  by apply replace_verbatim_fill_some.
Qed.

Lemma upper_char_keeps (d c : ascii) :
  Js.upper_char d = d -> Js.lower_char d = d ->
  Ascii.eqb d (Js.upper_char c) = Ascii.eqb d c.
Proof.
  intros Hup Hlow.
  destruct (Ascii.eqb d c) eqn:Hdc.
  - apply Ascii.eqb_eq in Hdc as <-. rewrite Hup. apply Ascii.eqb_refl.
  - apply Ascii.eqb_neq. apply Ascii.eqb_neq in Hdc. intros ->.
    apply Hdc. clear Hdc Hup. revert Hlow.
    destruct c as [[] [] [] [] [] [] [] []]; vm_compute; congruence.
Qed.

Lemma toUpperCase_keeps (d : ascii) (s : string) :
  Js.upper_char d = d -> Js.lower_char d = d ->
  Js.has_char d (Js.toUpperCase s) = Js.has_char d s.
Proof.
  intros Hup Hlow. induction s as [| c s IH]; [reflexivity |].
  unfold Js.toUpperCase in *. cbn [Js.map_chars Js.has_char].
  by rewrite IH, upper_char_keeps.
Qed.

Lemma toUpperCase_plain (s : string) :
  plain_value s = true -> plain_value (" " +:+ Js.toUpperCase s) = true.
Proof.
  unfold plain_value. rewrite append_cons, append_nil. cbn [Js.has_char].
  by rewrite !toUpperCase_keeps.
Qed.

End FillPlaceholders.

Section CopyTransform.
Import Template.

Variable localPort : string.
Variable processEnv : gmap string string.
Variable isDev : bool.
Variable env : string.

(** On a manifest whose text holds no bracket besides its placeholders, the
    transform of [copyPlugin] puts the value of each placeholder in its
    place, provided the values are plain and the domain rewrite has nothing
    to rewrite. *)
Lemma copyPlugin_transform_fills (t : list Piece) :
  plain_texts t = true ->
  plain_value env = true ->
  plain_value (value localPort processEnv isDev env BaseUrl) = true ->
  Js.includes "web.prod." (with_base_url localPort processEnv isDev env t) = false ->
  ViteConfig.copyPlugin_transform localPort processEnv isDev env (render t) =
  fill (value localPort processEnv isDev env) t.
Proof.
  intros Ht Henv Hbase Hdomain.
  apply andb_true_iff in Henv as [Henv1 Henv2].
  apply andb_true_iff in Hbase as [Hbase1 Hbase2].
  apply negb_true_iff in Henv1, Henv2, Hbase1, Hbase2.
  assert (plain_value (value localPort processEnv isDev env EnvSuffix) = true) as Hsuffix.
  { cbn [value]. destruct (String.eqb env "prod"); [reflexivity |].
    apply toUpperCase_plain. unfold plain_value. by rewrite Henv1, Henv2. }
  apply andb_true_iff in Hsuffix as [Hsuffix1 Hsuffix2].
  apply negb_true_iff in Hsuffix1, Hsuffix2.
  unfold ViteConfig.copyPlugin_transform, render, fill. cbv zeta.
  change "<BASE_URL>" with (marker BaseUrl).
  change "<ENV_NAME>" with (marker EnvName).
  change "<ENV_SUFFIX>" with (marker EnvSuffix).
  change "<OPENFIN_RUNTIME>" with (marker OpenfinRuntime).
  change (ViteConfig.getBaseUrl localPort processEnv (isDev || String.eqb env "local"))
    with (value localPort processEnv isDev env BaseUrl).
  change (if String.eqb env "prod" then "" else " " +:+ Js.toUpperCase env)
    with (value localPort processEnv isDev env EnvSuffix).
  set (base := value localPort processEnv isDev env BaseUrl) in *.
  set (suffix := value localPort processEnv isDev env EnvSuffix) in *.
  rewrite (replaceAll_fill_some (fun _ => None) BaseUrl base t); try done.
  set (v1 := update (fun _ => None) BaseUrl base).
  assert (Js.replaceAll "web.prod." "www." (fill_some v1 t) = fill_some v1 t) as ->.
  { unfold Js.replaceAll. apply replace_aux_absent.
    replace (fill_some v1 t) with (with_base_url localPort processEnv isDev env t);
      [exact Hdomain |].
    unfold with_base_url. apply fill_some_ext.
    intros p. subst v1 base. by destruct p. }
  rewrite (replaceAll_fill_some v1 EnvName env t); try done.
  2:{ intros p y. subst v1. destruct p; unfold update; simpl; intros [= <-]; done. }
  set (v3 := update v1 EnvName env).
  rewrite (replaceAll_fill_some v3 EnvSuffix suffix t); try done.
  2:{ intros p y. subst v3 v1. destruct p; unfold update; simpl; intros [= <-]; done. }
  set (v4 := update v3 EnvSuffix suffix).
  rewrite (replaceAll_fill_some v4 OpenfinRuntime ViteConfig.OPENFIN_RUNTIME t); try done.
  2:{ intros p y. subst v4 v3 v1. destruct p; unfold update; simpl; intros [= <-]; done. }
  apply fill_some_ext. intros p. subst v4 v3 v1 base suffix. by destruct p.
Qed.

End CopyTransform.

(** ** The domain rewrite on a manifest *)

Lemma append_nil_r (s : string) : s +:+ "" = s.
Proof. induction s as [| c s IH]; [reflexivity |]. by rewrite append_cons, IH. Qed.

Lemma append_assoc (s t u : string) : (s +:+ t) +:+ u = s +:+ (t +:+ u).
Proof. induction s as [| c s IH]; [reflexivity |]. by rewrite !append_cons, IH. Qed.

Lemma has_char_append (d : ascii) (s t : string) :
  Js.has_char d (s +:+ t) = Js.has_char d s || Js.has_char d t.
Proof.
  induction s as [| c s IH]; [reflexivity |].
  rewrite append_cons. cbn [Js.has_char]. by rewrite IH, orb_assoc.
Qed.

(** A character that the pattern does not hold ends every match before it. *)
Lemma startsWith_barrier (b : ascii) (rest pat : string) :
  Js.has_char b pat = false ->
  forall x, Js.startsWith pat (x +:+ String b rest) = Js.startsWith pat x.
Proof.
  induction pat as [| a p IH]; intros Hb x; [by destruct x |].
  cbn [Js.has_char] in Hb. apply orb_false_iff in Hb as [Hba Hp].
  destruct x as [| c x].
  - rewrite append_nil. cbn [Js.startsWith]. by rewrite Ascii.eqb_sym, Hba.
  - rewrite append_cons. cbn [Js.startsWith]. destruct (Ascii.eqb a c); [by apply IH | done].
Qed.

Lemma startsWith_length (pat x : string) :
  Js.startsWith pat x = true -> String.length pat <= String.length x.
Proof.
  revert x. induction pat as [| a p IH]; intros x; [simpl; lia |].
  destruct x as [| c x]; [discriminate |].
  cbn [Js.startsWith String.length]. destruct (Ascii.eqb a c); [| discriminate].
  intros Hp%IH. lia.
Qed.

(** A character that neither the text nor the replacement holds is not in
    the result. *)
Lemma replace_verbatim_keeps_out (d : ascii) (pat rep : string) :
  Js.has_char d rep = false ->
  forall s skip,
    Js.has_char d s = false -> Js.has_char d (Js.replace_verbatim pat rep skip s) = false.
Proof.
  intros Hrep. induction s as [| c s IH]; intros skip; [done |].
  cbn [Js.has_char]. intros [Hc Hs]%orb_false_iff.
  cbn [Js.replace_verbatim]. destruct skip as [| k]; [| by apply IH].
  destruct (Js.startsWith pat (String c s)).
  - rewrite has_char_append, Hrep. by apply IH.
  - cbn [Js.has_char]. rewrite Hc. by apply IH.
Qed.

Section ReplaceRuns.

(** The pattern starts with the character [a]. *)
Variable a : ascii.
Variable p rep : string.

Let pat : string := String a p.

(** Text without the first character of the pattern is passed over. *)
Lemma replace_verbatim_pass (x rest : string) :
  Js.has_char a x = false ->
  Js.replace_verbatim pat rep 0 (x +:+ rest) = x +:+ Js.replace_verbatim pat rep 0 rest.
Proof.
  induction x as [| c x IH]; [reflexivity |].
  cbn [Js.has_char]. intros [Hc Hx]%orb_false_iff.
  rewrite !append_cons. unfold pat. cbn [Js.replace_verbatim Js.startsWith].
  rewrite Hc. fold pat. by rewrite (IH Hx).
Qed.

Lemma replace_verbatim_skipped (x rest : string) :
  Js.replace_verbatim pat rep (String.length x) (x +:+ rest) =
  Js.replace_verbatim pat rep 0 rest.
Proof.
  induction x as [| c x IH]; [reflexivity |].
  rewrite append_cons. cbn [String.length Js.replace_verbatim]. exact IH.
Qed.

(** Where the pattern stands, the replacement is written. *)
Lemma replace_verbatim_match (rest : string) :
  Js.replace_verbatim pat rep 0 (pat +:+ rest) =
  rep +:+ Js.replace_verbatim pat rep 0 rest.
Proof.
  unfold pat. rewrite append_cons.
  change (Js.replace_verbatim (String a p) rep 0 (String a (p +:+ rest)))
    with (if Js.startsWith (String a p) (String a (p +:+ rest))
          then rep +:+ Js.replace_verbatim (String a p) rep
                         (String.length (String a p) - 1) (p +:+ rest)
          else String a (Js.replace_verbatim (String a p) rep 0 (p +:+ rest))).
  rewrite <- append_cons, startsWith_append.
  replace (String.length (String a p) - 1) with (String.length p) by (simpl; lia).
  fold pat. by rewrite (replace_verbatim_skipped p rest).
Qed.

(** The scan stops and starts afresh at a character that the pattern does
    not hold. *)
Lemma replace_verbatim_barrier (b : ascii) (rest : string) :
  Js.has_char b pat = false ->
  forall x skip,
    skip <= String.length x ->
    Js.replace_verbatim pat rep skip (x +:+ String b rest) =
    Js.replace_verbatim pat rep skip x +:+ String b (Js.replace_verbatim pat rep 0 rest).
Proof.
  intros Hb. induction x as [| c x IH]; intros skip Hskip.
  - simpl in Hskip. assert (skip = 0) as -> by lia.
    rewrite append_nil. cbn [Js.replace_verbatim].
    pose proof (startsWith_barrier b rest pat Hb "") as Hsw.
    rewrite append_nil in Hsw. rewrite Hsw. reflexivity.
  - rewrite append_cons. cbn [Js.replace_verbatim]. destruct skip as [| k].
    + assert (Js.startsWith pat (String c (x +:+ String b rest)) =
              Js.startsWith pat (String c x)) as ->.
      { rewrite <- append_cons. by apply startsWith_barrier. }
      destruct (Js.startsWith pat (String c x)) eqn:Hsw.
      * apply startsWith_length in Hsw. cbn [String.length] in Hsw.
        rewrite IH by lia. by rewrite append_assoc.
      * rewrite IH by lia. by rewrite append_cons.
    + cbn [String.length] in Hskip. apply IH. lia.
Qed.

End ReplaceRuns.

Section RewriteRuns.
Import Template.

(** A rewrite of the pattern [String a p] by a text without a dollar sign;
    the pattern holds no bracket, and no placeholder holds its first
    character. *)
Variable a : ascii.
Variable p rep : string.

Let pat : string := String a p.

Hypothesis rep_plain : Js.has_char "$" rep = false.
Hypothesis pat_bracket : Js.has_char "<" pat = false.
Hypothesis pat_labels : forall q, Js.has_char a (label q) = false.

Lemma replaceAll_verbatim (s : string) :
  Js.replaceAll pat rep s = Js.replace_verbatim pat rep 0 s.
Proof. unfold Js.replaceAll. by apply replace_aux_verbatim. Qed.

(** The rewrite acts on each stretch of text between two placeholders by
    itself, and leaves the placeholders as they are. *)
Lemma replaceAll_runs (t : list Piece) (acc : string) :
  Js.replaceAll pat rep (acc +:+ render t) = render (map_runs (Js.replaceAll pat rep) acc t).
Proof.
  revert acc. unfold render.
  induction t as [| [s | q] t IH]; intros acc; cbn [fill_some map_runs].
  - by rewrite !append_nil_r.
  - by rewrite <- append_assoc, IH.
  - cbn [default]. unfold marker. rewrite !append_cons.
    rewrite (replaceAll_verbatim (acc +:+ _)).
    unfold pat. rewrite replace_verbatim_barrier by (exact pat_bracket || lia).
    rewrite replace_verbatim_pass by apply pat_labels.
    fold pat. rewrite <- !replaceAll_verbatim.
    specialize (IH ""). rewrite append_nil in IH. by rewrite IH.
Qed.

Lemma map_runs_plain (t : list Piece) (acc : string) :
  Js.has_char "<" rep = false ->
  Js.has_char "<" acc = false ->
  plain_texts t = true ->
  plain_texts (map_runs (Js.replaceAll pat rep) acc t) = true.
Proof.
  intros Hrep. revert acc.
  induction t as [| [s | q] t IH]; intros acc Hacc; cbn [plain_texts map_runs].
  - intros _. rewrite replaceAll_verbatim, replace_verbatim_keeps_out; done.
  - intros [Hs Ht]%andb_true_iff. apply negb_true_iff in Hs.
    apply IH; [| done]. by rewrite has_char_append, Hacc, Hs.
  - intros Ht. rewrite replaceAll_verbatim, replace_verbatim_keeps_out by done.
    by apply IH.
Qed.

(** One occurrence of the pattern, after text without its first character. *)
Lemma replaceAll_one (x y : string) :
  Js.has_char a x = false ->
  Js.includes pat y = false ->
  Js.replaceAll pat rep (x +:+ pat +:+ y) = x +:+ rep +:+ y.
Proof.
  intros Hx Hy. rewrite replaceAll_verbatim.
  unfold pat. rewrite replace_verbatim_pass by exact Hx.
  rewrite replace_verbatim_match. fold pat.
  rewrite <- replaceAll_verbatim. unfold Js.replaceAll.
  by rewrite replace_aux_absent.
Qed.

End RewriteRuns.

Section BaseUrlInText.
Import Template.

Lemma subst_base_render (b : string) (t : list Piece) :
  fill_some (update (fun _ => None) BaseUrl b) t = render (subst_base b t).
Proof.
  unfold render. induction t as [| [s | q] t IH]; [reflexivity | |].
  - cbn [subst_base fill_some]. by rewrite IH.
  - destruct q; cbn [subst_base fill_some]; by rewrite IH.
Qed.

Lemma subst_base_plain (b : string) (t : list Piece) :
  Js.has_char "<" b = false -> plain_texts t = true -> plain_texts (subst_base b t) = true.
Proof.
  intros Hb. induction t as [| [s | q] t IH]; [done | |].
  - cbn [subst_base plain_texts]. intros [Hs Ht]%andb_true_iff. by rewrite Hs, IH.
  - destruct q; cbn [subst_base plain_texts]; intros Ht; rewrite ?Hb; by apply IH.
Qed.

(** Once the base URL stands in the text, the value given for its
    placeholder plays no part. *)
Lemma fill_some_without_base (f : string -> string) (b : string)
    (v w : Placeholder -> option string) (t : list Piece) (acc : string) :
  (forall q, q <> BaseUrl -> v q = w q) ->
  fill_some v (map_runs f acc (subst_base b t)) =
  fill_some w (map_runs f acc (subst_base b t)).
Proof.
  intros Hvw. revert acc. induction t as [| [s | q] t IH]; intros acc.
  - reflexivity.
  - cbn [subst_base map_runs]. apply IH.
  - destruct q; cbn [subst_base map_runs fill_some]; rewrite ?IH, ?Hvw; done.
Qed.

End BaseUrlInText.

Lemma getBaseUrl_value (localPort : string) (processEnv : gmap string string) (dev : bool) :
  ViteConfig.getBaseUrl localPort processEnv dev =
  if dev then "http://localhost:" +:+ localPort
  else Js.or_else (processEnv !! "DOMAIN") "" +:+ Js.or_else (processEnv !! "URL_PATH") "".
Proof.
  unfold ViteConfig.getBaseUrl. destruct dev; [reflexivity | apply or_else_empty].
Qed.

Section CopyTransformRuns.
Import Template.

Variable localPort : string.
Variable processEnv : gmap string string.
Variable isDev : bool.
Variable env : string.

Let baseUrl : string :=
  if isDev || String.eqb env "local" then "http://localhost:" +:+ localPort
  else Js.or_else (processEnv !! "DOMAIN") "" +:+ Js.or_else (processEnv !! "URL_PATH") "".

Let values (q : Placeholder) : string :=
  match q with
  | BaseUrl => baseUrl
  | EnvName => env
  | EnvSuffix => if String.eqb env "prod" then "" else " " +:+ Js.toUpperCase env
  | OpenfinRuntime => "31.112.75.4"
  end.

(** The transform of [copyPlugin] on a manifest whose text holds no bracket
    besides its placeholders: the base URL is put in, [web.prod.] is
    rewritten in each stretch of text between the placeholders that are left,
    and these are filled. *)
Lemma copyPlugin_transform_runs (t : list Piece) :
  plain_texts t = true ->
  plain_value env = true ->
  plain_value baseUrl = true ->
  ViteConfig.copyPlugin_transform localPort processEnv isDev env (render t) =
  fill values (map_runs (Js.replaceAll "web.prod." "www.") "" (subst_base baseUrl t)).
Proof.
  intros Ht Henv Hbase.
  apply andb_true_iff in Henv as [Henv1 Henv2].
  apply andb_true_iff in Hbase as [Hbase1 Hbase2].
  apply negb_true_iff in Henv1, Henv2, Hbase1, Hbase2.
  assert (plain_value (values EnvSuffix) = true) as Hsuffix.
  { cbn [values]. destruct (String.eqb env "prod"); [reflexivity |].
    apply toUpperCase_plain. unfold plain_value. by rewrite Henv1, Henv2. }
  apply andb_true_iff in Hsuffix as [Hsuffix1 Hsuffix2].
  apply negb_true_iff in Hsuffix1, Hsuffix2.
  unfold ViteConfig.copyPlugin_transform. cbv zeta.
  rewrite getBaseUrl_value. fold baseUrl.
  change "<BASE_URL>" with (marker BaseUrl).
  change "<ENV_NAME>" with (marker EnvName).
  change "<ENV_SUFFIX>" with (marker EnvSuffix).
  change "<OPENFIN_RUNTIME>" with (marker OpenfinRuntime).
  change (if String.eqb env "prod" then "" else " " +:+ Js.toUpperCase env)
    with (values EnvSuffix).
  set (suffix := values EnvSuffix) in *.
  unfold render at 1.
  rewrite (replaceAll_fill_some (fun _ => None) BaseUrl baseUrl t); try done.
  rewrite subst_base_render.
  set (rewrite := Js.replaceAll "web.prod." "www.").
  assert (forall t', rewrite (render t') = render (map_runs rewrite "" t')) as Hruns.
  { intros t'. subst rewrite.
    rewrite <- (replaceAll_runs "w" "eb.prod." "www." eq_refl eq_refl); [done |].
    by intros []. }
  rewrite Hruns.
  set (t2 := map_runs rewrite "" (subst_base baseUrl t)).
  assert (plain_texts t2 = true) as Ht2.
  { subst t2 rewrite. apply (map_runs_plain "w" "eb.prod." "www."); try done.
    by apply subst_base_plain. }
  unfold render.
  rewrite (replaceAll_fill_some (fun _ => None) EnvName env t2); try done.
  set (v3 := update (fun _ => None) EnvName env).
  rewrite (replaceAll_fill_some v3 EnvSuffix suffix t2); try done.
  2:{ intros q y. subst v3. destruct q; unfold update; simpl; intros [= <-]; done. }
  set (v4 := update v3 EnvSuffix suffix).
  rewrite (replaceAll_fill_some v4 OpenfinRuntime ViteConfig.OPENFIN_RUNTIME t2); try done.
  2:{ intros q y. subst v4 v3. destruct q; unfold update; simpl; intros [= <-]; done. }
  unfold fill. subst t2. apply fill_some_without_base.
  intros q Hq. subst v4 v3 suffix. by destruct q.
Qed.

(** Where, with the base URL put in, the text [web.prod.] does not occur,
    each placeholder is replaced by its value and nothing else changes. *)
Lemma copyPlugin_transform_no_rewrite (t : list Piece) :
  plain_texts t = true ->
  plain_value env = true ->
  plain_value baseUrl = true ->
  Js.includes "web.prod." (render (subst_base baseUrl t)) = false ->
  ViteConfig.copyPlugin_transform localPort processEnv isDev env (render t) =
  fill values t.
Proof.
  intros Ht Henv Hbase Hdomain.
  assert (value localPort processEnv isDev env BaseUrl = baseUrl) as Hvalue.
  { cbn [value]. by rewrite getBaseUrl_value. }
  rewrite (copyPlugin_transform_fills localPort processEnv isDev env t Ht Henv).
  - apply fill_some_ext. intros q. destruct q; cbn [values]; try reflexivity.
    by rewrite Hvalue.
  - by rewrite Hvalue.
  - replace (with_base_url localPort processEnv isDev env t)
      with (render (subst_base baseUrl t)); [exact Hdomain |].
    rewrite <- subst_base_render. unfold with_base_url. apply fill_some_ext.
    intros q. rewrite Hvalue. by destruct q.
Qed.

End CopyTransformRuns.

(** ** The static-copy plugin *)

Lemma arr_includes_In (x : string) (arr : list string) :
  Js.arr_includes x arr = true <-> In x arr.
Proof.
  unfold Js.arr_includes. rewrite existsb_exists. split.
  - intros (y & Hy & Heq). apply String.eqb_eq in Heq. by subst.
  - intros Hx. exists x. split; [exact Hx | apply String.eqb_refl].
Qed.

(** C7: the static-copy plugin picks its assets by build target.  For
    "openfin" it copies the JSON configs of public-openfin, once more
    [rt-fx.json] under the name [app.json], and the plugin directory; for
    any other target, "web" and "finsemble" alike, the PWA manifest and the
    splash screens.  Every JSON entry carries the transform.  On a manifest
    whose text holds no bracket besides its placeholders, and for an
    environment name in ASCII without bracket or dollar sign, the transform
    gives the manifest with the base URL in its place (the local server's
    for a development build or the environment "local", the domain followed
    by the URL path otherwise), [web.prod.] rewritten to [www.] in each
    stretch of text between the other placeholders, and these replaced by
    the environment name, by the suffix (nothing for "prod", a space and the
    name in upper case otherwise) and by the OpenFin runtime.  Where there is
    no [web.prod.] to rewrite, that is the manifest with each placeholder
    replaced by its value. *)
Theorem copyPlugin_assets_by_target
    (localPort : string) (processEnv : gmap string string)
    (isDev : bool) (buildTarget env : string) :
  let options := ViteConfig.copyPlugin localPort processEnv isDev buildTarget env in
  let transform := ViteConfig.copyPlugin_transform localPort processEnv isDev env in
  let baseUrl :=
    if isDev || String.eqb env "local" then "http://localhost:" +:+ localPort
    else Js.or_else (processEnv !! "DOMAIN") "" +:+
         Js.or_else (processEnv !! "URL_PATH") "" in
  let values := fun placeholder =>
    match placeholder with
    | Template.BaseUrl => baseUrl
    | Template.EnvName => env
    | Template.EnvSuffix =>
        if String.eqb env "prod" then "" else " " +:+ Js.toUpperCase env
    | Template.OpenfinRuntime => "31.112.75.4"
    end in
  (buildTarget = "openfin" ->
     ViteConfig.targets options =
     [ {| ViteConfig.src := "public-openfin/*.json"; ViteConfig.dest := "config";
          ViteConfig.rename := None; ViteConfig.transform := Some transform |};
       {| ViteConfig.src := "public-openfin/rt-fx.json"; ViteConfig.dest := "config";
          ViteConfig.rename := Some "app.json"; ViteConfig.transform := Some transform |};
       {| ViteConfig.src := "public-openfin/plugin/*"; ViteConfig.dest := "plugin";
          ViteConfig.rename := None; ViteConfig.transform := None |} ]) /\
  (buildTarget <> "openfin" ->
     ViteConfig.targets options =
     [ {| ViteConfig.src := "public-pwa/manifest.json"; ViteConfig.dest := "";
          ViteConfig.rename := None; ViteConfig.transform := Some transform |};
       {| ViteConfig.src := "public-pwa/splashscreens/*"; ViteConfig.dest := "splashscreens";
          ViteConfig.rename := None; ViteConfig.transform := None |} ]) /\
  (buildTarget = "web" \/ buildTarget = "finsemble" ->
     map ViteConfig.src (ViteConfig.targets options) =
     [ "public-pwa/manifest.json"; "public-pwa/splashscreens/*" ]) /\
  (forall target, In target (ViteConfig.targets options) ->
     Js.endsWith ".json" (ViteConfig.src target) = true ->
     ViteConfig.transform target = Some transform) /\
  (forall t,
     Template.plain_texts t = true ->
     Template.plain_value env = true ->
     Notions.ascii_text env = true ->
     Template.plain_value baseUrl = true ->
     transform (Template.render t) =
     Template.fill values
       (Template.map_runs (Js.replaceAll "web.prod." "www.") ""
          (Template.subst_base baseUrl t))) /\
  (forall t,
     Template.plain_texts t = true ->
     Template.plain_value env = true ->
     Notions.ascii_text env = true ->
     Template.plain_value baseUrl = true ->
     Js.includes "web.prod." (Template.render (Template.subst_base baseUrl t)) = false ->
     transform (Template.render t) = Template.fill values t).
Proof.
  cbv zeta. unfold ViteConfig.copyPlugin. cbn [ViteConfig.targets].
  split; [| split; [| split; [| split; [| split]]]].
  - intros ->. reflexivity.
  - intros Hne. apply String.eqb_neq in Hne. by rewrite Hne.
  - intros [-> | ->]; reflexivity.
  - intros target Hin Hjson.
    destruct (String.eqb buildTarget "openfin"); simpl in Hin.
    + destruct Hin as [<- | [<- | [<- | []]]]; try reflexivity.
      vm_compute in Hjson. discriminate.
    + destruct Hin as [<- | [<- | []]]; try reflexivity.
      vm_compute in Hjson. discriminate.
  - intros t Ht Henv _ Hbase. by apply copyPlugin_transform_runs.
  - intros t Ht Henv _ Hbase Hdomain. by apply copyPlugin_transform_no_rewrite.
Qed.

(** C7, on samples: the manifest of the samples, copied for the environment
    "prod" of a build on the production domain, names the [www] host; copied
    by a development build for the environment "dev", it names the local
    server. *)
Lemma copyPlugin_fills_sample_manifest :
  ViteConfig.copyPlugin_transform "1917"
    {[ "DOMAIN" := "https://web.prod.reactivetrader.com" ]} false "prod"
    (Template.render Samples.manifest) =
  "name: Reactive Trader, env: prod, start_url: https://www.reactivetrader.com/, runtime: 31.112.75.4" /\
  ViteConfig.copyPlugin_transform "1917" ∅ true "dev" (Template.render Samples.manifest) =
  "name: Reactive Trader DEV, env: dev, start_url: http://localhost:1917/, runtime: 31.112.75.4".
Proof.
  split.
  - destruct (copyPlugin_assets_by_target "1917"
                {[ "DOMAIN" := "https://web.prod.reactivetrader.com" ]} false "web" "prod")
      as (_ & _ & _ & _ & Hfill & _).
    rewrite Hfill; reflexivity.
  - destruct (copyPlugin_assets_by_target "1917" ∅ true "web" "dev")
      as (_ & _ & _ & _ & Hfill & _).
    rewrite Hfill; reflexivity.
Defined.

(** ** The target-build plugin in dev mode *)

Section TargetBuildDev.
Import ViteConfig.
Context `{Path.PathApi}.

Variable target : string.
Variable fs : FileSystem.

(** The hook in dev mode, by what it reads: the second piece of the source
    split at dots, and the listing of the directory of the source. *)
Lemma targetBuildPlugin_dev (source : string) (importer : option string) :
  let file := Path.parse source in
  targetBuildPlugin true target fs source importer =
  match Js.split "." source !! 1%nat with
  | Some extension =>
      if String.eqb extension "ts" || String.eqb extension "tsx" then
        match readdirSync fs ("." +:+ Path.dir file) with
        | None => Throws
        | Some files =>
            if Js.arr_includes
                 (Path.name file +:+ "." +:+ target +:+ "." +:+ extension) files
            then Resolve (Path.dir file +:+ "/" +:+ Path.name file +:+ "." +:+
                          target +:+ "." +:+ extension) importer
            else Null
        end
      else Null
  | None => Null
  end.
Proof.
  cbv zeta. unfold targetBuildPlugin.
  destruct (Js.split "." source !! 1%nat) as [extension |] eqn:Hext;
    cbn [default]; [| by rewrite !bool_decide_eq_false_2].
  destruct (String.eqb extension "ts") eqn:Hts.
  - apply String.eqb_eq in Hts as ->.
    rewrite bool_decide_eq_true_2 by done. cbn [negb andb orb].
    destruct (readdirSync fs _) as [files |]; [| reflexivity].
    by destruct (Js.arr_includes _ files).
  - apply String.eqb_neq in Hts.
    rewrite (bool_decide_eq_false_2 (Some extension = Some "ts")) by congruence.
    destruct (String.eqb extension "tsx") eqn:Htsx.
    + apply String.eqb_eq in Htsx as ->.
      rewrite bool_decide_eq_true_2 by done. cbn [negb andb orb].
      destruct (readdirSync fs _) as [files |]; [| reflexivity].
      by destruct (Js.arr_includes _ files).
    + apply String.eqb_neq in Htsx.
      rewrite bool_decide_eq_false_2 by congruence. reflexivity.
Qed.

(** A source with a dotted name, or under a dotted directory, is never
    rewritten in dev mode, whatever its extension and whatever the
    directory holds: its second piece is not the extension. *)
Lemma targetBuildPlugin_dev_dotted (a b rest : string) (importer : option string) :
  Js.has_char "." a = false -> Js.has_char "." b = false ->
  b <> "ts" -> b <> "tsx" ->
  targetBuildPlugin true target fs (a +:+ "." +:+ b +:+ "." +:+ rest) importer = Null.
Proof.
  intros Ha Hb Hts Htsx. rewrite targetBuildPlugin_dev. cbv zeta.
  rewrite !append_cons, !append_nil.
  rewrite (split_cons "." a), (split_cons "." b) by assumption.
  cbn [lookup list_lookup].
  apply String.eqb_neq in Hts, Htsx. by rewrite Hts, Htsx.
Qed.

End TargetBuildDev.

(** C5, at the failing input: the import of [/src/services/trades.service.ts]
    has the extension [ts], and its directory holds
    [trades.service.openfin.ts]; the hook returns null all the same, where
    the import of [/src/services/trades.ts] beside it is rewritten. *)
Theorem targetBuildPlugin_dev_misses_dotted_name :
  let source := "/src/services/trades.service.ts" in
  let importer := Some "/src/main.tsx" in
  let file := Posix.parse source in
  ViteConfig.Path.ext file = ".ts" /\
  ViteConfig.Path.name file = "trades.service" /\
  (exists files,
     ViteConfig.readdirSync Samples.services_fs ("." +:+ ViteConfig.Path.dir file) = Some files /\
     In (ViteConfig.Path.name file +:+ ".openfin" +:+ ViteConfig.Path.ext file) files) /\
  ViteConfig.targetBuildPlugin (H := Posix.posix) true "openfin" Samples.services_fs
    source importer = ViteConfig.Null /\
  ViteConfig.targetBuildPlugin (H := Posix.posix) true "openfin" Samples.services_fs
    "/src/services/trades.ts" importer =
  ViteConfig.Resolve "/src/services/trades.openfin.ts" importer.
Proof.
  cbv zeta. split; [by vm_compute |]. split; [by vm_compute |]. split; [| split].
  - eexists. split; [by vm_compute |]. vm_compute. auto.
  - apply (targetBuildPlugin_dev_dotted (H := Posix.posix) "openfin" Samples.services_fs
             "/src/services/trades" "service" "ts"); by vm_compute.
  - by vm_compute.
Qed.

(** ** The plugins on a sample tree *)

(** The index switch follows the target: the entry module of the OpenFin
    build is [main.openfin.ts] when that file exists, and a target without
    an entry module of its own keeps the common one. *)
Lemma indexSwitchPlugin_follows_target :
  let fs := Samples.fs_of ∅ {[ "/repo/client/src/main.openfin.ts" ]} in
  let importer := Some "/repo/client/src/index.ts" in
  ViteConfig.indexSwitchPlugin (H := Posix.posix) "openfin" fs "./main" importer =
    ViteConfig.Id "/repo/client/src/main.openfin.ts" /\
  ViteConfig.indexSwitchPlugin (H := Posix.posix) "web" fs "./main" importer =
    ViteConfig.Null.
Proof. cbv zeta. split; by vm_compute. Qed.

(** In a build, an import under [/src] is looked for beside the [client]
    directory of the importer, with the target in its name. *)
Lemma targetBuildPlugin_build_sample :
  let fs := Samples.fs_of ∅ {[ "/repo/client/src/services/trades.openfin.ts" ]} in
  let importer := Some "/repo/client/src/App/Trades.tsx" in
  ViteConfig.targetBuildPlugin (H := Posix.posix) false "OpenFin" fs
    "/src/services/trades" importer =
    ViteConfig.Id "/repo/client/src/services/trades.openfin.ts" /\
  ViteConfig.targetBuildPlugin (H := Posix.posix) false "web" fs
    "/src/services/trades" importer = ViteConfig.Null.
Proof. cbv zeta. split; by vm_compute. Qed.

(** ** The credit end-to-end test *)

(** C8: the last assertion of the credit test compares the identifier taken
    from the text of the "view trade" button, its third token when split at
    spaces, with the text the blotter shows for it; the test passes only
    when the two are the same text. *)
Theorem credit_test_passes_only_on_equal_ids
    (btnTxt : option string) (rfqBlotterPage : CreditE2E.BlotterPage) :
  (CreditE2E.test btnTxt rfqBlotterPage = CreditE2E.Passed <->
     exists txt id, btnTxt = Some txt /\ CreditE2E.tradeId txt = Some id /\
                    rfqBlotterPage (Some id) = Some id) /\
  (forall txt blotterId,
     btnTxt = Some txt ->
     rfqBlotterPage (CreditE2E.tradeId txt) = Some blotterId ->
     (CreditE2E.test btnTxt rfqBlotterPage = CreditE2E.Passed <->
      CreditE2E.tradeId txt = Some blotterId)) /\
  (forall w1 w2 w3 rest,
     Js.has_char " " w1 = false -> Js.has_char " " w2 = false ->
     Js.has_char " " w3 = false ->
     CreditE2E.tradeId (w1 +:+ " " +:+ w2 +:+ " " +:+ w3) = Some w3 /\
     CreditE2E.tradeId (w1 +:+ " " +:+ w2 +:+ " " +:+ w3 +:+ " " +:+ rest) = Some w3).
Proof.
  split; [| split].
  - unfold CreditE2E.test, CreditE2E.toEqual. split.
    + destruct btnTxt as [txt |]; [| discriminate].
      destruct (rfqBlotterPage (CreditE2E.tradeId txt)) as [blotterId |] eqn:Hpage;
        [| discriminate].
      case_bool_decide as Heq; [| discriminate].
      intros _. exists txt, blotterId. rewrite Heq in Hpage. auto.
    + intros (txt & id & -> & Hid & Hpage). rewrite Hid, Hpage.
      by rewrite bool_decide_eq_true_2.
  - intros txt blotterId -> Hpage. unfold CreditE2E.test, CreditE2E.toEqual.
    rewrite Hpage. case_bool_decide as Heq; split; intros Hx; congruence.
  - intros w1 w2 w3 rest H1 H2 H3. unfold CreditE2E.tradeId.
    rewrite !append_cons, !append_nil. split.
    + rewrite (split_cons " " w1), (split_cons " " w2), (split_last " " w3) by assumption.
      reflexivity.
    + rewrite (split_cons " " w1), (split_cons " " w2), (split_cons " " w3) by assumption.
      reflexivity.
Qed.

(** C8, on a sample: the button reads "View Trade 42" and the blotter shows
    "42" for it. *)
Lemma credit_test_passes_on_trade_42 :
  CreditE2E.test (Some "View Trade 42") (fun id => id) = CreditE2E.Passed.
Proof.
  destruct (credit_test_passes_only_on_equal_ids (Some "View Trade 42") (fun id => id))
    as (Hpass & _).
  apply Hpass. exists "View Trade 42", "42". repeat split; by vm_compute.
Defined.

(** * Further properties *)

(** ** Ends of texts *)

Lemma rev_app_append (s t acc : string) :
  String.rev_app (s +:+ t) acc = String.rev_app t (String.rev_app s acc).
Proof.
  revert acc. induction s as [| a s IH]; intros acc; [reflexivity |].
  rewrite append_cons. simpl. apply IH.
Qed.

Lemma rev_app_acc (s acc : string) :
  String.rev_app s acc = String.rev_app s "" +:+ acc.
Proof.
  revert acc. induction s as [| a s IH]; intros acc; [reflexivity |].
  simpl. rewrite (IH (String a acc)), (IH (String a "")).
  generalize (String.rev_app s ""). intros r.
  induction r as [| b r IHr]; [reflexivity |].
  by rewrite !append_cons, IHr.
Qed.

Lemma rev_append (s t : string) :
  String.rev (s +:+ t) = String.rev t +:+ String.rev s.
Proof.
  unfold String.rev. rewrite rev_app_append. apply rev_app_acc.
Qed.

Lemma endsWith_append (s x : string) : Js.endsWith x (s +:+ x) = true.
Proof.
  unfold Js.endsWith. rewrite rev_append. apply startsWith_append.
Qed.

(** ** Replacing one character by another *)

Lemma replaceAll_char (c d : ascii) (s : string) :
  d <> "$"%char ->
  Js.replaceAll (String c "") (String d "") s = Js.map_chars (Notions.swap_char c d) s.
Proof.
  intros Hd. unfold Js.replaceAll.
  rewrite replace_aux_verbatim.
  2:{ cbn [Js.has_char]. apply orb_false_iff. split; [| reflexivity].
      apply Ascii.eqb_neq. congruence. }
  induction s as [| a s IH]; [reflexivity |].
  cbn [Js.replace_verbatim Js.map_chars Js.startsWith String.length Nat.sub].
  unfold Notions.swap_char at 1.
  destruct (Ascii.eqb c a); rewrite IH; reflexivity.
Qed.

Lemma map_chars_idempotent (f : ascii -> ascii) (s : string) :
  (forall a, f (f a) = f a) -> Js.map_chars f (Js.map_chars f s) = Js.map_chars f s.
Proof.
  intros Hf. induction s as [| a s IH]; [reflexivity |].
  cbn [Js.map_chars]. by rewrite Hf, IH.
Qed.

Lemma map_chars_empty (f : ascii -> ascii) (s : string) :
  Js.map_chars f s = "" <-> s = "".
Proof. destruct s; simpl; split; intros Hs; congruence. Qed.

Lemma swap_char_idempotent (c d a : ascii) :
  c <> d -> Notions.swap_char c d (Notions.swap_char c d a) = Notions.swap_char c d a.
Proof.
  intros Hcd. unfold Notions.swap_char.
  destruct (Ascii.eqb c a) eqn:Hca; [| by rewrite Hca].
  apply Ascii.eqb_neq in Hcd. by rewrite Hcd.
Qed.

Lemma lower_char_idempotent (a : ascii) : Js.lower_char (Js.lower_char a) = Js.lower_char a.
Proof. destruct a as [[] [] [] [] [] [] [] []]; reflexivity. Qed.

Lemma toLowerCase_idempotent (s : string) :
  Js.toLowerCase (Js.toLowerCase s) = Js.toLowerCase s.
Proof. apply map_chars_idempotent, lower_char_idempotent. Qed.

(** ** Pieces of a split *)

Section SplitPieces.

Variable c : ascii.

Lemma split_aux_pieces (s : string) :
  let '(p, ps) := Js.split_aux (String c "") 0 s in
  length ps = Notions.count_char c s /\
  Js.has_char c p = false /\
  Forall (fun q => Js.has_char c q = false) ps.
Proof.
  induction s as [| a s IH]; [by repeat split |].
  cbn [Js.split_aux Js.startsWith String.length Nat.sub Notions.count_char].
  destruct (Js.split_aux (String c "") 0 s) as [p ps].
  destruct IH as (Hlen & Hp & Hps).
  destruct (Ascii.eqb c a) eqn:Hca.
  - repeat split; [simpl; by rewrite Hlen | by constructor].
  - repeat split; [exact Hlen | | exact Hps].
    cbn [Js.has_char]. by rewrite Hca, Hp.
Qed.

(** A split at a character has one piece more than the text has
    occurrences of the character, and no piece holds the character. *)
Lemma split_length (s : string) :
  length (Js.split (String c "") s) = S (Notions.count_char c s).
Proof.
  unfold Js.split. pose proof (split_aux_pieces s) as Hs.
  destruct (Js.split_aux (String c "") 0 s) as [p ps]. simpl. by destruct Hs as [-> _].
Qed.

Lemma split_pieces_without (s : string) :
  Forall (fun q => Js.has_char c q = false) (Js.split (String c "") s).
Proof.
  unfold Js.split. pose proof (split_aux_pieces s) as Hs.
  destruct (Js.split_aux (String c "") 0 s) as [p ps].
  destruct Hs as (_ & Hp & Hps). by constructor.
Qed.

End SplitPieces.

(** ** Outcomes of the [resolveId] hooks *)

(** X1: the mock replacer hands an import over to its service mock exactly
    when the source ends in [.ts] and the listing of its directory holds
    [<name>.service-mock.ts]; it throws exactly when the source ends in
    [.ts] and the directory cannot be listed; it never returns a path of
    its own, and a [.tsx] source is never replaced. *)
Theorem apiMockReplacerPlugin_outcomes `{ViteConfig.Path.PathApi}
    (fs : ViteConfig.FileSystem) (source : string) (importer : option string) :
  let file := ViteConfig.Path.parse source in
  let mock := ViteConfig.Path.name file +:+ ".service-mock.ts" in
  let listing := ViteConfig.readdirSync fs ("." +:+ ViteConfig.Path.dir file) in
  let r := ViteConfig.apiMockReplacerPlugin fs source importer in
  (forall id imp,
     r = ViteConfig.Resolve id imp <->
     Js.endsWith ".ts" source = true /\
     (exists files, listing = Some files /\ In mock files) /\
     id = ViteConfig.Path.dir file +:+ "/" +:+ mock /\ imp = importer) /\
  (r = ViteConfig.Throws <-> Js.endsWith ".ts" source = true /\ listing = None) /\
  (forall id, r <> ViteConfig.Id id) /\
  (forall stem,
     ViteConfig.apiMockReplacerPlugin fs (stem +:+ ".tsx") importer = ViteConfig.Null).
Proof.
  cbv zeta. unfold ViteConfig.apiMockReplacerPlugin.
  split; [| split; [| split]].
  - intros id imp.
    destruct (Js.endsWith ".ts" source); cbn [negb];
      [| split; [discriminate | intros (Hx & _); discriminate]].
    destruct (ViteConfig.readdirSync fs _) as [files |];
      [| split; [discriminate | intros (_ & (files & Hx & _) & _); discriminate]].
    destruct (Js.arr_includes _ files) eqn:Hin; cbn [negb].
    + apply arr_includes_In in Hin. split.
      * intros [= <- <-]. eauto 6.
      * intros (_ & _ & -> & ->). reflexivity.
    + split; [discriminate |].
      intros (_ & (files' & [= <-] & Hmock) & _).
      apply arr_includes_In in Hmock. congruence.
  - destruct (Js.endsWith ".ts" source); cbn [negb];
      [| split; [discriminate | intros (Hx & _); discriminate]].
    destruct (ViteConfig.readdirSync fs _) as [files |].
    + destruct (Js.arr_includes _ files); cbn [negb];
        (split; [discriminate | intros (_ & Hx); discriminate]).
    + by split.
  - intros id.
    destruct (Js.endsWith ".ts" source); cbn [negb]; [| discriminate].
    destruct (ViteConfig.readdirSync fs _) as [files |]; [| discriminate].
    destruct (Js.arr_includes _ files); discriminate.
  - intros stem.
    assert (Js.endsWith ".ts" (stem +:+ ".tsx") = false) as ->; [| reflexivity].
    unfold Js.endsWith. rewrite rev_append. reflexivity.
Qed.

(** X2: in dev mode the target-build hook hands an import over to its
    target variant exactly when the second piece of the source, split at
    dots, is [ts] or [tsx] and the listing of the directory of the source
    holds [<name>.<target>.<piece>]; it throws exactly when that piece is
    [ts] or [tsx] and the directory cannot be listed; it never returns a
    path of its own, and a source without a dot is left alone. *)
Theorem targetBuildPlugin_dev_outcomes `{ViteConfig.Path.PathApi}
    (target : string) (fs : ViteConfig.FileSystem)
    (source : string) (importer : option string) :
  let file := ViteConfig.Path.parse source in
  let sibling := fun e => ViteConfig.Path.name file +:+ "." +:+ target +:+ "." +:+ e in
  let listing := ViteConfig.readdirSync fs ("." +:+ ViteConfig.Path.dir file) in
  let r := ViteConfig.targetBuildPlugin true target fs source importer in
  (forall id imp,
     r = ViteConfig.Resolve id imp <->
     exists e, Js.split "." source !! 1%nat = Some e /\ (e = "ts" \/ e = "tsx") /\
               (exists files, listing = Some files /\ In (sibling e) files) /\
               id = ViteConfig.Path.dir file +:+ "/" +:+ sibling e /\ imp = importer) /\
  (r = ViteConfig.Throws <->
     exists e, Js.split "." source !! 1%nat = Some e /\ (e = "ts" \/ e = "tsx") /\
               listing = None) /\
  (forall id, r <> ViteConfig.Id id) /\
  (Js.has_char "." source = false -> r = ViteConfig.Null).
Proof.
  cbv zeta. rewrite targetBuildPlugin_dev. cbv zeta.
  destruct (Js.split "." source !! 1%nat) as [e |] eqn:Hpiece.
  2:{ split; [| split; [| split]]; try done.
      - intros id imp. split; [discriminate | intros (e & Hx & _); discriminate].
      - split; [discriminate | intros (e & Hx & _); discriminate]. }
  assert (String.eqb e "ts" || String.eqb e "tsx" = true <-> e = "ts" \/ e = "tsx") as Hext.
  { rewrite orb_true_iff, !String.eqb_eq. reflexivity. }
  destruct (String.eqb e "ts" || String.eqb e "tsx") eqn:Hok.
  2:{ assert (~ (e = "ts" \/ e = "tsx")) as Hno by (rewrite <- Hext; discriminate).
      split; [| split; [| split]]; try done.
      - intros id imp. split; [discriminate |].
        intros (e' & [= <-] & Hx & _). tauto.
      - split; [discriminate |]. intros (e' & [= <-] & Hx & _). tauto. }
  assert (e = "ts" \/ e = "tsx") as Hyes by (by apply Hext).
  split; [| split; [| split]].
  - intros id imp.
    destruct (ViteConfig.readdirSync fs _) as [files |];
      [| split; [discriminate |];
         intros (e' & _ & _ & (files & Hx & _) & _); discriminate].
    destruct (Js.arr_includes _ files) eqn:Hin.
    + apply arr_includes_In in Hin. split.
      * intros [= <- <-]. exists e. eauto 8.
      * intros (e' & [= <-] & _ & _ & -> & ->). reflexivity.
    + split; [discriminate |].
      intros (e' & [= <-] & _ & (files' & [= <-] & Hsib) & _).
      apply arr_includes_In in Hsib. congruence.
  - destruct (ViteConfig.readdirSync fs _) as [files |].
    + destruct (Js.arr_includes _ files);
        (split; [discriminate | intros (e' & _ & _ & Hx); discriminate]).
    + split; [eauto | reflexivity].
  - intros id. destruct (ViteConfig.readdirSync fs _) as [files |]; [| discriminate].
    destruct (Js.arr_includes _ files); discriminate.
  - intros Hnodot. rewrite (split_last "." source Hnodot) in Hpiece. discriminate.
Qed.



(** X4: in a build the target-build hook reads the importer with its
    backslashes turned into slashes: an importer written with backslashes
    resolves as the same path written with slashes. *)
Theorem targetBuildPlugin_build_importer_slashes `{ViteConfig.Path.PathApi}
    (target : string) (fs : ViteConfig.FileSystem) (source importer : string) :
  ViteConfig.targetBuildPlugin false target fs source (Some importer) =
  ViteConfig.targetBuildPlugin false target fs source
    (Some (Js.replaceAll "\" "/" importer)).
Proof.
  unfold ViteConfig.targetBuildPlugin. rewrite !or_else_empty.
  rewrite !replaceAll_char by discriminate.
  rewrite map_chars_idempotent by (intros a; by apply swap_char_idempotent).
  assert (Js.truthy (Some (Js.map_chars (Notions.swap_char "\" "/") importer)) =
          Js.truthy (Some importer)) as ->; [| reflexivity].
  cbn [Js.truthy]. f_equal.
  destruct (String.eqb importer "") eqn:Hi.
  - apply String.eqb_eq in Hi as ->. reflexivity.
  - apply String.eqb_neq. apply String.eqb_neq in Hi. by rewrite map_chars_empty.
Qed.

(** X5: in a build the target-build hook and the index switch read the
    target in lower case: a target resolves as its lower-case spelling. *)
Theorem build_hooks_ignore_target_case `{ViteConfig.Path.PathApi}
    (target : string) (fs : ViteConfig.FileSystem)
    (source : string) (importer : option string) :
  ViteConfig.targetBuildPlugin false target fs source importer =
  ViteConfig.targetBuildPlugin false (Js.toLowerCase target) fs source importer /\
  ViteConfig.indexSwitchPlugin target fs source importer =
  ViteConfig.indexSwitchPlugin (Js.toLowerCase target) fs source importer.
Proof.
  unfold ViteConfig.targetBuildPlugin, ViteConfig.indexSwitchPlugin.
  by rewrite toLowerCase_idempotent.
Qed.


(** ** The plugins of a configuration *)

Section PluginLists.
Import ViteConfig.

Variable localPort : string.

(** Membership in [devPlugins], plugin by plugin. *)
Lemma devPlugins_In (processEnv : gmap string string) (mode : string) (p : Plugin) :
  let isDev := String.eqb mode "development" in
  let baseUrl := getBaseUrl localPort processEnv false in
  In p (devPlugins localPort processEnv mode) <->
  p = TargetBuildPlugin isDev (buildTarget processEnv) \/
  p = IndexSwitchPlugin (buildTarget processEnv) \/
  (Js.truthy (processEnv !! "VITE_MOCKS") = true /\ p = ApiMockReplacerPlugin) \/
  p = React \/
  (isDev = false /\
   (p = SplitVendorChunkPlugin \/ p = CustomPreloadPlugin (Js.or_else (Some baseUrl) ""))) \/
  (buildTarget processEnv = "web" /\
   p = InjectWebServiceWorkerPlugin mode
         (getBaseUrl localPort processEnv isDev +:+ "/assets")) \/
  p = CopyPlugin isDev (buildTarget processEnv) (env processEnv) \/
  p = InjectScriptIntoHtml isDev (buildTarget processEnv) (env processEnv).
Proof.
  cbv zeta. unfold devPlugins. cbv zeta. rewrite !in_app_iff.
  rewrite <- (String.eqb_eq (buildTarget processEnv) "web").
  generalize (getBaseUrl localPort processEnv (String.eqb mode "development") +:+ "/assets").
  generalize (Js.or_else (Some (getBaseUrl localPort processEnv false)) "").
  generalize (buildTarget processEnv) (env processEnv).
  intros bt e pre assets.
  destruct (Js.truthy (processEnv !! "VITE_MOCKS"));
    destruct (String.eqb mode "development");
    destruct (String.eqb bt "web");
    cbn [negb In];
    (split; intros Hx;
     repeat match goal with
            | H : _ \/ _ |- _ => destruct H
            | H : _ /\ _ |- _ => destruct H
            | H : False |- _ => destruct H
            end;
     try discriminate; subst; auto 20).
Qed.

Lemma plugins_In (processEnv loadedEnv : gmap string string) (mode : string) (p : Plugin) :
  In p (plugins (setConfig localPort processEnv loadedEnv mode).1) <->
  ((loadedEnv ∪ processEnv) !! "STORYBOOK" <> Some "true" /\
   In p (devPlugins localPort (loadedEnv ∪ processEnv) mode)) \/
  p = FontFacePreload.
Proof.
  unfold setConfig. cbn [fst plugins]. rewrite in_app_iff.
  case_bool_decide as Hstory; cbn [In]; intuition (try discriminate; eauto).
Qed.

End PluginLists.

(** X7: mocks take the place of the gateway: whenever the mock replacer is
    among the plugins the server has no proxy, and outside Storybook the
    server has no proxy exactly when the mock replacer is among the
    plugins. *)
Theorem mocks_replace_proxy
    (localPort : string) (processEnv loadedEnv : gmap string string) (mode : string) :
  let config := (ViteConfig.setConfig localPort processEnv loadedEnv mode).1 in
  let env' := (ViteConfig.setConfig localPort processEnv loadedEnv mode).2 in
  (In ViteConfig.ApiMockReplacerPlugin (ViteConfig.plugins config) ->
     ViteConfig.server_proxy config = None) /\
  (env' !! "STORYBOOK" <> Some "true" ->
     (In ViteConfig.ApiMockReplacerPlugin (ViteConfig.plugins config) <->
      ViteConfig.server_proxy config = None)).
Proof.
  cbv zeta. rewrite setConfig_env.
  assert (forall cond : Prop,
            (cond /\ Js.truthy ((loadedEnv ∪ processEnv) !! "VITE_MOCKS") = true) \/ False ->
            ViteConfig.server_proxy
              (ViteConfig.setConfig localPort processEnv loadedEnv mode).1 = None) as Hnone.
  { intros cond [[_ Hmocks] | []]. unfold ViteConfig.setConfig, ViteConfig.proxy. simpl.
    by rewrite Hmocks. }
  assert (In ViteConfig.ApiMockReplacerPlugin
            (ViteConfig.plugins (ViteConfig.setConfig localPort processEnv loadedEnv mode).1) <->
          (loadedEnv ∪ processEnv) !! "STORYBOOK" <> Some "true" /\
          Js.truthy ((loadedEnv ∪ processEnv) !! "VITE_MOCKS") = true) as Hin.
  { rewrite plugins_In, devPlugins_In. cbv zeta.
    intuition (try discriminate; auto). }
  split.
  - intros Hx. apply (Hnone True). left. split; [exact I | by apply Hin].
  - intros Hstory. rewrite Hin. split.
    + intros [_ Hmocks]. apply (Hnone True). auto.
    + intros Hproxy. split; [exact Hstory |].
      unfold ViteConfig.setConfig, ViteConfig.proxy in Hproxy. simpl in Hproxy.
      destruct (Js.truthy ((loadedEnv ∪ processEnv) !! "VITE_MOCKS")); [reflexivity | discriminate].
Qed.

(** X8: which of the optional plugins a configuration holds: the vendor
    chunk splitter and the preload plugin in every mode but development,
    the service worker injection for the target "web" only, the mock
    replacer when [VITE_MOCKS] has a value; under Storybook none of them. *)
Theorem optional_plugins
    (localPort : string) (processEnv loadedEnv : gmap string string) (mode : string) :
  let config := (ViteConfig.setConfig localPort processEnv loadedEnv mode).1 in
  let env' := (ViteConfig.setConfig localPort processEnv loadedEnv mode).2 in
  let storybook := env' !! "STORYBOOK" = Some "true" in
  (In ViteConfig.SplitVendorChunkPlugin (ViteConfig.plugins config) <->
     ~ storybook /\ mode <> "development") /\
  ((exists prefix, In (ViteConfig.CustomPreloadPlugin prefix) (ViteConfig.plugins config)) <->
     ~ storybook /\ mode <> "development") /\
  ((exists m assets,
      In (ViteConfig.InjectWebServiceWorkerPlugin m assets) (ViteConfig.plugins config)) <->
     ~ storybook /\ ViteConfig.buildTarget env' = "web") /\
  (In ViteConfig.ApiMockReplacerPlugin (ViteConfig.plugins config) <->
     ~ storybook /\ exists v, env' !! "VITE_MOCKS" = Some v /\ v <> "").
Proof.
  cbv zeta. rewrite setConfig_env. rewrite <- truthy_iff.
  rewrite <- (String.eqb_neq mode "development").
  split; [| split; [| split]].
  - rewrite plugins_In, devPlugins_In. cbv zeta.
    intuition (try discriminate; auto 10).
  - split.
    + intros [prefix Hin]. revert Hin. rewrite plugins_In, devPlugins_In. cbv zeta.
      intuition (try discriminate; auto).
    + intros [Hstory Hmode]. eexists. rewrite plugins_In, devPlugins_In. cbv zeta.
      left. split; [exact Hstory |]. do 4 right. left. split; [exact Hmode |].
      right. reflexivity.
  - split.
    + intros (m & assets & Hin). revert Hin. rewrite plugins_In, devPlugins_In. cbv zeta.
      intuition (try discriminate; auto).
    + intros [Hstory Hweb]. eexists _, _. rewrite plugins_In, devPlugins_In. cbv zeta.
      left. split; [exact Hstory |]. do 5 right. left. split; [exact Hweb | reflexivity].
  - rewrite plugins_In, devPlugins_In. cbv zeta.
    intuition (try discriminate; auto 10).
Qed.

(** X9: the font preload is the last plugin of every configuration and
    stands there once; under Storybook it is the only plugin, otherwise it
    follows the plugins of [devPlugins]. *)
Theorem fontFacePreload_last
    (localPort : string) (processEnv loadedEnv : gmap string string) (mode : string) :
  let config := (ViteConfig.setConfig localPort processEnv loadedEnv mode).1 in
  let env' := (ViteConfig.setConfig localPort processEnv loadedEnv mode).2 in
  exists front,
    ViteConfig.plugins config = front ++ [ViteConfig.FontFacePreload] /\
    ~ In ViteConfig.FontFacePreload front /\
    (env' !! "STORYBOOK" = Some "true" -> front = []) /\
    (env' !! "STORYBOOK" <> Some "true" ->
       front = ViteConfig.devPlugins localPort env' mode).
Proof.
  cbv zeta. rewrite setConfig_env. unfold ViteConfig.setConfig. cbn [fst ViteConfig.plugins].
  case_bool_decide as Hstory.
  - exists []. repeat split; [by intros [] | done].
  - eexists. split; [reflexivity |]. split; [| done].
    rewrite devPlugins_In. cbv zeta. intuition discriminate.
Qed.

(** X10: a variable that [loadEnv] gives takes effect in the
    configuration, whether the process environment had it or not: a
    non-empty [VITE_MOCKS] switches the proxy off and, outside storybook,
    the mock replacer on; without mocks, a non-empty [VITE_HYDRA_URL] is the
    target of the proxy.  A variable that [loadEnv] does not give is read as
    the process has it. *)
Theorem loadEnv_variables_take_effect
    (localPort : string) (processEnv loadedEnv : gmap string string) (mode : string) :
  let config := (ViteConfig.setConfig localPort processEnv loadedEnv mode).1 in
  let env' := (ViteConfig.setConfig localPort processEnv loadedEnv mode).2 in
  (forall v, loadedEnv !! "VITE_MOCKS" = Some v -> v <> "" ->
     ViteConfig.server_proxy config = None /\
     (env' !! "STORYBOOK" <> Some "true" ->
        In ViteConfig.ApiMockReplacerPlugin (ViteConfig.plugins config))) /\
  (forall url, loadedEnv !! "VITE_HYDRA_URL" = Some url -> url <> "" ->
     Js.truthy (env' !! "VITE_MOCKS") = false ->
     exists table options,
       ViteConfig.server_proxy config = Some table /\
       table !! "/ws" = Some options /\
       ViteConfig.target options = url) /\
  (forall k, loadedEnv !! k = None -> env' !! k = processEnv !! k).
Proof.
  cbv zeta. rewrite setConfig_env.
  assert (forall k v, loadedEnv !! k = Some v -> (loadedEnv ∪ processEnv) !! k = Some v)
    as Hleft.
  { intros k v Hk. by apply lookup_union_Some_l. }
  unfold ViteConfig.setConfig. cbn [fst ViteConfig.server_proxy ViteConfig.plugins].
  set (env' := loadedEnv ∪ processEnv) in *.
  split; [| split].
  - intros v Hv Hne.
    assert (Js.truthy (env' !! "VITE_MOCKS") = true) as Hmocks.
    { apply truthy_iff. exists v. split; [by apply Hleft | exact Hne]. }
    split.
    + unfold ViteConfig.proxy. by rewrite Hmocks.
    + intros Hstory. case_bool_decide; [done |].
      apply in_or_app. left. apply devPlugins_In. cbv zeta. auto.
  - intros url Hurl Hne Hmocks.
    unfold ViteConfig.proxy. rewrite Hmocks.
    eexists _, _. split; [reflexivity |].
    split; [by rewrite lookup_singleton_eq |].
    cbn [ViteConfig.target]. apply or_else_set; [by apply Hleft | exact Hne].
  - intros k Hk. by apply lookup_union_r.
Qed.

(** X11: apart from the mode and the port of the local server, the
    configuration depends on the environment through seven variables only
    ([DOMAIN], [URL_PATH], [ENVIRONMENT], [TARGET], [VITE_MOCKS],
    [STORYBOOK], [VITE_HYDRA_URL]): for one port and one mode, two
    environments that agree on them give the same configuration.  The port
    does matter: it is the port of the server and of the preview, so two
    ports never give the same configuration. *)
Theorem setConfig_reads_config_keys
    (localPort : string) (processEnv1 loadedEnv1 processEnv2 loadedEnv2 : gmap string string)
    (mode : string) :
  let config1 := (ViteConfig.setConfig localPort processEnv1 loadedEnv1 mode).1 in
  let config2 := (ViteConfig.setConfig localPort processEnv2 loadedEnv2 mode).1 in
  ((forall k, In k Notions.config_keys ->
      (loadedEnv1 ∪ processEnv1) !! k = (loadedEnv2 ∪ processEnv2) !! k) ->
   config1 = config2) /\
  ViteConfig.server_port config1 = localPort /\
  ViteConfig.preview_port config1 = localPort /\
  (forall otherPort,
     (ViteConfig.setConfig otherPort processEnv2 loadedEnv2 mode).1 = config1 ->
     otherPort = localPort).
Proof.
  cbv zeta. split; [| split; [reflexivity | split; [reflexivity |]]].
  2:{ intros otherPort Heq. by apply (f_equal ViteConfig.server_port) in Heq. }
  intros Hagree. unfold ViteConfig.setConfig. cbn [fst].
  set (e1 := loadedEnv1 ∪ processEnv1) in *.
  set (e2 := loadedEnv2 ∪ processEnv2) in *.
  assert (e1 !! "DOMAIN" = e2 !! "DOMAIN") as Hdomain by (apply Hagree; simpl; auto 10).
  assert (e1 !! "URL_PATH" = e2 !! "URL_PATH") as Hpath by (apply Hagree; simpl; auto 10).
  assert (e1 !! "ENVIRONMENT" = e2 !! "ENVIRONMENT") as Henv by (apply Hagree; simpl; auto 10).
  assert (e1 !! "TARGET" = e2 !! "TARGET") as Htarget by (apply Hagree; simpl; auto 10).
  assert (e1 !! "VITE_MOCKS" = e2 !! "VITE_MOCKS") as Hmocks by (apply Hagree; simpl; auto 10).
  assert (e1 !! "STORYBOOK" = e2 !! "STORYBOOK") as Hstory by (apply Hagree; simpl; auto 10).
  assert (e1 !! "VITE_HYDRA_URL" = e2 !! "VITE_HYDRA_URL") as Hhydra
    by (apply Hagree; simpl; auto 10).
  unfold ViteConfig.devPlugins, ViteConfig.proxy, ViteConfig.getBaseUrl,
    ViteConfig.env, ViteConfig.buildTarget.
  by rewrite Hdomain, Hpath, Henv, Htarget, Hmocks, Hstory, Hhydra.
Qed.

(** X11, on a sample: a variable of the process that the configuration does
    not read changes nothing. *)
Lemma setConfig_ignores_HOME :
  (ViteConfig.setConfig "1917" {[ "HOME" := "/home/dev"; "TARGET" := "openfin" ]} ∅
     "production").1 =
  (ViteConfig.setConfig "1917" {[ "TARGET" := "openfin" ]} ∅ "production").1.
Proof.
  apply setConfig_reads_config_keys.
  intros k Hk. simpl in Hk.
  repeat (destruct Hk as [<- | Hk]; [by vm_compute |]). destruct Hk.
Defined.

(** ** The transform of the copied manifests, further *)

Lemma includes_marker_plain (lbl s : string) :
  Js.has_char "<" s = false -> Js.includes (String "<" lbl) s = false.
Proof.
  induction s as [| a s IH]; [reflexivity |].
  cbn [Js.has_char Js.includes Js.startsWith].
  intros [Ha Hs]%orb_false_iff. rewrite Ha. cbn [orb]. by apply IH.
Qed.

(** X12: a file that holds no opening bracket and not the text [web.prod.]
    is copied as it is, whatever the environment. *)
Theorem copyPlugin_transform_plain_text
    (localPort : string) (processEnv : gmap string string)
    (isDev : bool) (env contents : string) :
  Js.has_char "<" contents = false ->
  Js.includes "web.prod." contents = false ->
  ViteConfig.copyPlugin_transform localPort processEnv isDev env contents = contents.
Proof.
  intros Hplain Hdomain. unfold ViteConfig.copyPlugin_transform, Js.replaceAll. cbv zeta.
  rewrite (replace_aux_absent "<BASE_URL>") by (by apply includes_marker_plain).
  rewrite (replace_aux_absent "web.prod.") by exact Hdomain.
  rewrite (replace_aux_absent "<ENV_NAME>") by (by apply includes_marker_plain).
  rewrite (replace_aux_absent "<ENV_SUFFIX>") by (by apply includes_marker_plain).
  by rewrite (replace_aux_absent "<OPENFIN_RUNTIME>") by (by apply includes_marker_plain).
Qed.

(** X12, on a sample: a manifest line without placeholders, copied for an
    environment whose name holds a dollar sign. *)
Lemma copyPlugin_transform_plain_sample :
  ViteConfig.copyPlugin_transform "1917" ∅ false "$&" "display: standalone" =
  "display: standalone".
Proof. apply copyPlugin_transform_plain_text; reflexivity. Defined.

(** X13: the copy plugin of a configuration is made from its mode and
    environment, and where a manifest has [<BASE_URL>] between texts without
    a bracket, its transform writes the address of the local server, for a
    development build and for the environment "local" alike, and the base of
    the configuration for any other build; [web.prod.] is then rewritten to
    [www.] in the text with the base URL in it.  So a base on the
    [web.prod.] host is written with the [www.] host. *)
Theorem manifest_base_url
    (localPort : string) (processEnv loadedEnv : gmap string string) (mode : string) :
  let config := (ViteConfig.setConfig localPort processEnv loadedEnv mode).1 in
  let env' := (ViteConfig.setConfig localPort processEnv loadedEnv mode).2 in
  let isDev := String.eqb mode "development" in
  let env := ViteConfig.env env' in
  let transform := ViteConfig.copyPlugin_transform localPort env' isDev env in
  let baseUrl :=
    if isDev || String.eqb env "local"
    then "http://localhost:" +:+ localPort
    else ViteConfig.base config in
  In (ViteConfig.CopyPlugin isDev (ViteConfig.buildTarget env') env)
     (ViteConfig.devPlugins localPort env' mode) /\
  (forall before after,
     Js.has_char "<" before = false ->
     Js.has_char "<" after = false ->
     Template.plain_value baseUrl = true ->
     transform (before +:+ "<BASE_URL>" +:+ after) =
     Js.replaceAll "web.prod." "www." (before +:+ baseUrl +:+ after)) /\
  (forall before after scheme host,
     Js.has_char "<" before = false ->
     Js.has_char "<" after = false ->
     Template.plain_value baseUrl = true ->
     baseUrl = scheme +:+ "web.prod." +:+ host ->
     Js.has_char "w" (before +:+ scheme) = false ->
     Js.includes "web.prod." (host +:+ after) = false ->
     transform (before +:+ "<BASE_URL>" +:+ after) =
     before +:+ scheme +:+ "www." +:+ host +:+ after).
Proof.
  cbv zeta. rewrite setConfig_env. set (env' := loadedEnv ∪ processEnv).
  set (isDev := String.eqb mode "development").
  set (env := ViteConfig.env env').
  assert ((if isDev || String.eqb env "local"
           then "http://localhost:" +:+ localPort
           else ViteConfig.base (ViteConfig.setConfig localPort processEnv loadedEnv mode).1) =
          ViteConfig.getBaseUrl localPort env' (isDev || String.eqb env "local")) as ->.
  { unfold ViteConfig.setConfig. cbn [fst ViteConfig.base]. fold env' isDev.
    unfold ViteConfig.getBaseUrl.
    destruct isDev; [reflexivity |]. cbn [orb]. by destruct (String.eqb env "local"). }
  set (baseUrl := ViteConfig.getBaseUrl localPort env' (isDev || String.eqb env "local")).
  assert (forall before after,
            Js.has_char "<" before = false ->
            Js.has_char "<" after = false ->
            Template.plain_value baseUrl = true ->
            ViteConfig.copyPlugin_transform localPort env' isDev env
              (before +:+ "<BASE_URL>" +:+ after) =
            Js.replaceAll "web.prod." "www." (before +:+ baseUrl +:+ after)) as Hwritten.
  { intros before after Hbefore Hafter Hbase.
    apply andb_true_iff in Hbase as [Hbase1 Hbase2].
    apply negb_true_iff in Hbase1, Hbase2.
    unfold ViteConfig.copyPlugin_transform. cbv zeta. fold baseUrl.
    pose proof (replaceAll_fill_some (fun _ => None) Template.BaseUrl baseUrl
                  [Template.Text before; Template.Hole Template.BaseUrl; Template.Text after])
      as Hfill.
    cbn [Template.fill_some Template.plain_texts] in Hfill.
    unfold Template.update in Hfill. cbn [default] in Hfill.
    rewrite Hbefore, Hafter in Hfill.
    rewrite decide_True in Hfill by reflexivity. cbn [default] in Hfill.
    rewrite !append_nil_r in Hfill.
    change (Template.marker Template.BaseUrl) with "<BASE_URL>" in Hfill.
    rewrite Hfill by done.
    set (written := Js.replaceAll "web.prod." "www." (before +:+ baseUrl +:+ after)).
    assert (Js.has_char "<" written = false) as Hplain.
    { subst written. unfold Js.replaceAll. rewrite replace_aux_verbatim by reflexivity.
      apply replace_verbatim_keeps_out; [reflexivity |].
      by rewrite !has_char_append, Hbefore, Hbase1, Hafter. }
    unfold Js.replaceAll.
    rewrite (replace_aux_absent "<ENV_NAME>") by (by apply includes_marker_plain).
    rewrite (replace_aux_absent "<ENV_SUFFIX>") by (by apply includes_marker_plain).
    by rewrite (replace_aux_absent "<OPENFIN_RUNTIME>") by (by apply includes_marker_plain). }
  split; [| split].
  - rewrite devPlugins_In. cbv zeta. auto 10.
  - exact Hwritten.
  - intros before after scheme host Hbefore Hafter Hbase Hhost Hw Hrest.
    rewrite Hwritten by done. rewrite Hhost.
    rewrite <- !append_assoc. rewrite (append_assoc _ host after).
    rewrite (append_assoc (before +:+ scheme) "web.prod." (host +:+ after)).
    pose proof (replaceAll_one "w" "eb.prod." "www." eq_refl
                  (before +:+ scheme) (host +:+ after) Hw Hrest) as Hone.
    rewrite Hone. by rewrite !append_assoc.
Qed.

(** X13, on a sample: a production build on the [web.prod.] host. *)
Lemma manifest_base_url_prod :
  ViteConfig.copyPlugin_transform "1917"
    {[ "DOMAIN" := "https://web.prod.reactivetrader.com"; "ENVIRONMENT" := "prod" ]}
    false "prod" "start_url: <BASE_URL>/" =
  "start_url: https://www.reactivetrader.com/".
Proof.
  destruct (manifest_base_url "1917"
              {[ "DOMAIN" := "https://web.prod.reactivetrader.com"; "ENVIRONMENT" := "prod" ]}
              ∅ "production") as (_ & _ & Hprod).
  exact (Hprod "start_url: " "/" "https://" "reactivetrader.com"
           eq_refl eq_refl eq_refl eq_refl eq_refl eq_refl).
Defined.

(** X14: outside development one base URL serves the whole configuration:
    it is the base of the configuration, the prefix of the preload plugin
    and, followed by [/assets], the asset prefix of the service worker.  In
    development the base is [/] and the service worker's asset prefix is
    under the local server. *)
Theorem one_base_url
    (localPort : string) (processEnv loadedEnv : gmap string string) (mode : string) :
  let config := (ViteConfig.setConfig localPort processEnv loadedEnv mode).1 in
  let env' := (ViteConfig.setConfig localPort processEnv loadedEnv mode).2 in
  let all := ViteConfig.devPlugins localPort env' mode in
  (mode <> "development" ->
     ViteConfig.base config =
       Js.or_else (env' !! "DOMAIN") "" +:+ Js.or_else (env' !! "URL_PATH") "" /\
     (forall prefix, In (ViteConfig.CustomPreloadPlugin prefix) all <->
        prefix = ViteConfig.base config) /\
     (forall m assets, In (ViteConfig.InjectWebServiceWorkerPlugin m assets) all ->
        assets = ViteConfig.base config +:+ "/assets")) /\
  (mode = "development" ->
     ViteConfig.base config = "/" /\
     (forall m assets, In (ViteConfig.InjectWebServiceWorkerPlugin m assets) all ->
        assets = "http://localhost:" +:+ localPort +:+ "/assets")).
Proof.
  cbv zeta. rewrite setConfig_env. set (env' := loadedEnv ∪ processEnv).
  unfold ViteConfig.setConfig. cbn [fst ViteConfig.base]. fold env'.
  split.
  - intros Hmode. apply String.eqb_neq in Hmode. rewrite Hmode.
    assert (ViteConfig.getBaseUrl localPort env' false =
            Js.or_else (env' !! "DOMAIN") "" +:+ Js.or_else (env' !! "URL_PATH") "") as Hbase.
    { unfold ViteConfig.getBaseUrl. apply or_else_empty. }
    split; [exact Hbase |]. split.
    + intros prefix. rewrite devPlugins_In. cbv zeta. rewrite Hmode, or_else_empty.
      split; [| intros ->; auto 10].
      intros Hin.
      repeat match goal with
             | H : _ \/ _ |- _ => destruct H
             | H : _ /\ _ |- _ => destruct H
             end; congruence.
    + intros m assets. rewrite devPlugins_In. cbv zeta. rewrite Hmode.
      intros Hin.
      repeat match goal with
             | H : _ \/ _ |- _ => destruct H
             | H : _ /\ _ |- _ => destruct H
             end; congruence.
  - intros ->. cbn [String.eqb Ascii.eqb Bool.eqb]. split; [reflexivity |].
    intros m assets. rewrite devPlugins_In. cbv zeta.
    change (String.eqb "development" "development") with true.
    intros Hin.
    repeat match goal with
           | H : _ \/ _ |- _ => destruct H
           | H : _ /\ _ |- _ => destruct H
           end; try discriminate.
    match goal with
    | H : ViteConfig.InjectWebServiceWorkerPlugin _ _ = _ |- _ => injection H as _ ->
    end.
    reflexivity.
Qed.

(** ** The identifier read by the credit test *)

(** X15: the identifier read from the button is undefined exactly when the
    text of the button holds fewer than two spaces, and then the test
    fails, whatever the blotter shows. *)
Theorem tradeId_undefined_iff_few_spaces
    (btnTxt : string) (rfqBlotterPage : CreditE2E.BlotterPage) :
  (CreditE2E.tradeId btnTxt = None <-> Notions.count_char " " btnTxt < 2) /\
  (Notions.count_char " " btnTxt < 2 ->
     CreditE2E.test (Some btnTxt) rfqBlotterPage = CreditE2E.Failed).
Proof.
  assert (CreditE2E.tradeId btnTxt = None <-> Notions.count_char " " btnTxt < 2) as Hiff.
  { unfold CreditE2E.tradeId. rewrite lookup_ge_None, split_length. lia. }
  split; [exact Hiff |].
  intros Hfew. apply Hiff in Hfew. unfold CreditE2E.test. rewrite Hfew.
  destruct (rfqBlotterPage None) as [blotterId |]; reflexivity.
Qed.

(** X16: the identifier read from the button holds no space; so when the
    test passes, the text the blotter showed holds none. *)
Theorem tradeId_without_space
    (btnTxt : string) (rfqBlotterPage : CreditE2E.BlotterPage) :
  (forall id, CreditE2E.tradeId btnTxt = Some id -> Js.has_char " " id = false) /\
  (CreditE2E.test (Some btnTxt) rfqBlotterPage = CreditE2E.Passed ->
     exists blotterId,
       rfqBlotterPage (CreditE2E.tradeId btnTxt) = Some blotterId /\
       Js.has_char " " blotterId = false).
Proof.
  assert (forall id, CreditE2E.tradeId btnTxt = Some id -> Js.has_char " " id = false)
    as Hid.
  { intros id Hlookup. unfold CreditE2E.tradeId in Hlookup.
    pose proof (split_pieces_without " " btnTxt) as Hall.
    rewrite Forall_forall in Hall. apply Hall.
    apply list_elem_of_lookup. by exists 2%nat. }
  split; [exact Hid |].
  unfold CreditE2E.test, CreditE2E.toEqual.
  destruct (rfqBlotterPage (CreditE2E.tradeId btnTxt)) as [blotterId |]; [| discriminate].
  case_bool_decide as Heq; [| discriminate].
  intros _. exists blotterId. split; [reflexivity | by apply Hid].
Qed.

(** ** What the header controls return *)

(** X17: each header control returns the promise of the container: close
    and minimize the one of their call; maximize the one of the [restore]
    or [maximize] call it makes, and a rejection of the state query with
    the reason the container gave when the query fails. *)
Theorem headerControlHandlers_results (host : Host.Container) (win : Host.WindowId) :
  let h := LimitCheckerWindowFrame.headerControlHandlers win in
  let maximized := (Host.run host (LimitCheckerWindowFrame.maximize h) []).2 in
  let queried := [Host.WindowCall win Host.getState] in
  (Host.run host (LimitCheckerWindowFrame.close h) []).2 = host [] win Host.close /\
  (Host.run host (LimitCheckerWindowFrame.minimize h) []).2 = host [] win Host.minimize /\
  (forall reason, host [] win Host.getState = Host.Rejected reason ->
     maximized = Host.Rejected reason) /\
  (host [] win Host.getState = Host.Fulfilled "maximized" ->
     maximized = host queried win Host.restore) /\
  (forall state, state <> "maximized" ->
     host [] win Host.getState = Host.Fulfilled state ->
     maximized = host queried win Host.maximize).
Proof.
  cbv zeta. split; [reflexivity |]. split; [reflexivity |].
  simpl LimitCheckerWindowFrame.maximize. rewrite run_then. simpl.
  split; [| split].
  - intros reason ->. reflexivity.
  - intros ->. reflexivity.
  - intros state Hstate ->. apply String.eqb_neq in Hstate. by rewrite Hstate.
Qed.

(** ** The text injected into the page *)

Lemma includes_startsWith (p s : string) :
  Js.startsWith p s = true -> Js.includes p s = true.
Proof. intros Hs. destruct s; simpl; simpl in Hs; by rewrite Hs. Qed.

Lemma includes_append_r (p a s : string) :
  Js.includes p s = true -> Js.includes p (a +:+ s) = true.
Proof.
  intros Hs. induction a as [| c a IH]; [exact Hs |].
  rewrite append_cons. cbn [Js.includes]. rewrite IH. apply orb_true_r.
Qed.

(** X18: the page links the manifest for the target "web" only, while the
    copy plugin copies the PWA manifest for every target but "openfin": a
    "finsemble" build copies the manifest and its page does not link it. *)
Theorem manifest_linked_for_web_only
    (localPort : string) (processEnv : gmap string string)
    (isDev : bool) (buildTarget env : string) :
  let page := ViteConfig.injectScriptIntoHtml localPort processEnv isDev buildTarget env in
  let copied :=
    map ViteConfig.src
      (ViteConfig.targets (ViteConfig.copyPlugin localPort processEnv isDev buildTarget env)) in
  (Js.includes "<link rel=" page = true <-> buildTarget = "web") /\
  (In "public-pwa/manifest.json" copied <-> buildTarget <> "openfin") /\
  (buildTarget = "finsemble" ->
     In "public-pwa/manifest.json" copied /\ Js.includes "<link rel=" page = false).
Proof.
  cbv zeta.
  assert (buildTarget <> "web" ->
          Js.includes "<link rel="
            (ViteConfig.injectScriptIntoHtml localPort processEnv isDev buildTarget env) = false)
    as Hnolink.
  { intros Hne. apply String.eqb_neq in Hne.
    unfold ViteConfig.injectScriptIntoHtml, ViteConfig.manifestTag, ViteConfig.analyticsId.
    rewrite Hne. by destruct (String.eqb env "prod"); vm_compute. }
  assert (In "public-pwa/manifest.json"
            (map ViteConfig.src
               (ViteConfig.targets
                  (ViteConfig.copyPlugin localPort processEnv isDev buildTarget env))) <->
          buildTarget <> "openfin") as Hcopied.
  { unfold ViteConfig.copyPlugin. cbn [ViteConfig.targets].
    rewrite <- String.eqb_neq.
    destruct (String.eqb buildTarget "openfin"); cbn [map ViteConfig.src In].
    - split; [| discriminate]. intros [Hx | [Hx | [Hx | []]]]; discriminate.
    - split; [reflexivity | auto]. }
  split; [| split].
  - split.
    + intros Hlink. destruct (String.eqb buildTarget "web") eqn:Hweb.
      * by apply String.eqb_eq.
      * apply String.eqb_neq in Hweb. rewrite (Hnolink Hweb) in Hlink. discriminate.
    + intros ->. unfold ViteConfig.injectScriptIntoHtml, ViteConfig.manifestTag.
      cbn [String.eqb Ascii.eqb Bool.eqb].
      change (String.eqb "web" "web") with true. cbv iota.
      apply includes_append_r, includes_startsWith. reflexivity.
  - exact Hcopied.
  - intros ->. split; [by apply Hcopied | by apply Hnolink].
Qed.

(** ** The preload plugin *)

(** X19: the preload plugin of the configuration has no [generateBundle]
    hook: what the library gave under that name is under [writeBundle]
    ([undefined] when it gave none); [enforce] is "post"; every other
    property is as the library gave it. *)
Theorem customPreloadPlugin_moves_hook (preload : gmap string ViteConfig.Value) :
  let result := ViteConfig.customPreloadPlugin preload in
  result !! "generateBundle" = None /\
  result !! "writeBundle" =
    Some (default ViteConfig.Undefined (preload !! "generateBundle")) /\
  result !! "enforce" = Some (ViteConfig.Text "post") /\
  (forall k, k <> "enforce" -> k <> "writeBundle" -> k <> "generateBundle" ->
     result !! k = preload !! k).
Proof.
  cbv zeta. unfold ViteConfig.customPreloadPlugin. cbv zeta.
  split; [apply lookup_delete_eq |]. split; [| split].
  - rewrite lookup_delete_ne by done. rewrite lookup_insert_eq.
    by rewrite lookup_insert_ne by done.
  - rewrite lookup_delete_ne by done. rewrite lookup_insert_ne by done.
    apply lookup_insert_eq.
  - intros k He Hw Hg.
    rewrite lookup_delete_ne by done. rewrite lookup_insert_ne by done.
    by rewrite lookup_insert_ne by done.
Qed.
